(** * DALiuGE cluster start-up script: a shallow embedding

    The development follows [dlg/deploy/pawsey/start_dfms_cluster.py] and
    the part of [dfms/utils.py] it builds on ([portIsOpen],
    [writeToRemotePort]).  Python functions become Rocq functions of the
    same name.  A call that may raise returns a [result]; a loop that may
    spin for ever takes a [fuel] and answers [Running] when the fuel is
    spent before the loop has left.  The outside world (the network, the
    manager REST client, the clock, the file system) is a record of
    oracles that the functions consult in the order the code does. *)

From Stdlib Require Import ZArith String Ascii List Lia Bool.
From stdpp Require Import base option list strings gmap.

Local Open Scope string_scope.
Local Open Scope Z_scope.

(** ** Exceptions and results *)

(** The exceptions the script can meet.  [SocketError] carries the [errno]
    of a [socket.error]; [SocketTimeout] is [socket.timeout], which the
    handlers of [writeToRemotePort] test first; [SystemExit] is what
    [sys.exit(code)] raises. *)
Inductive exn : Type :=
  | SocketTimeout
  | SocketError (errno : Z)
  | ValueError
  | AttributeError
  | IndexError
  | OverflowError
  | TypeError
  | KeyboardInterrupt
  | SystemExit (code : Z)
  | UnknownSymbol (name : string)
  | OtherError (what : string).

Inductive result (A : Type) : Type :=
  | Ok (a : A)
  | Raise (e : exn)
  | Running.

Arguments Ok {A} a.
Arguments Raise {A} e.
Arguments Running {A}.

Definition bind {A B : Type} (r : result A) (k : A -> result B) : result B :=
  match r with
  | Ok a => k a
  | Raise e => Raise e
  | Running => Running
  end.

Definition returned {A : Type} (r : result A) : Prop :=
  match r with Ok _ => True | _ => False end.

(** [errno.ECONNREFUSED] and [errno.EHOSTUNREACH] on Linux. *)
Definition ECONNREFUSED : Z := 111.
Definition EHOSTUNREACH : Z := 113.

(** ** The network seen by one probing thread *)

(** Times are in milliseconds ([timeout=5] is [Some 5000], [timeout=None]
    is [None]).  Each oracle is indexed by the host, the port and the
    number of network calls the thread has already made: [connect] gives
    what [socket.socket(); settimeout(); connect(); close()] raises, if
    anything, and how long it took; [send] what [s.send(data)] raises;
    [create_session] and [destroy_session] what opening a
    [NodeManagerClient] and calling the method of that name raise. *)
Record network : Type := {
  connect : string -> Z -> nat -> option exn * Z;
  send : string -> Z -> nat -> option exn;
  create_session : string -> Z -> nat -> option exn;
  destroy_session : string -> Z -> nat -> option exn
}.

(** The thread's own state: its clock ([time.time()]) and the number of
    network calls it has made. *)
Record worker : Type := { now : Z; calls : nat }.

Definition worker0 : worker := {| now := 0; calls := 0 |}.

Definition sleep (d : Z) (w : worker) : worker :=
  {| now := now w + d; calls := calls w |}.

(** One pass through the [try] body of [writeToRemotePort] after the
    timeout test: connect, send the data if there is any, close. *)
Definition attempt (net : network) (host : string) (port : Z)
    (data : option string) (w : worker) : option exn * worker :=
  let '(r, d) := connect net host port (calls w) in
  let w' := {| now := now w + d; calls := S (calls w) |} in
  match r with
  | Some e => (Some e, w')
  | None =>
      match data with
      | None => (None, w')
      | Some _ => (send net host port (calls w), w')
      end
  end.

(** [utils.writeToRemotePort]: the [while True] loop, [start] being the
    clock when the function was entered. *)
Fixpoint writeToRemotePort_loop (fuel : nat) (net : network) (host : string)
    (port : Z) (data : option string) (timeout : option Z) (start : Z)
    (w : worker) : result bool * worker :=
  match fuel with
  | O => (Running, w)
  | S fuel' =>
      let expired :=
        match timeout with
        | Some t => negb (t =? 0) && (t - (now w - start) <=? 0)
        | None => false
        end in
      if expired then (Ok false, w)
      else
        match attempt net host port data w with
        | (None, w1) => (Ok true, w1)
        | (Some SocketTimeout, w1) => (Ok false, w1)
        | (Some (SocketError errno), w1) =>
            if errno =? ECONNREFUSED then
              let late :=
                match timeout with
                | Some t => now w1 - start >? t
                | None => false
                end in
              if late then (Ok false, w1)
              else writeToRemotePort_loop fuel' net host port data timeout
                     start (sleep 100 w1)
            else (Raise (SocketError errno), w1)
        | (Some e, w1) => (Raise e, w1)
        end
  end.

Definition writeToRemotePort (fuel : nat) (net : network) (host : string)
    (port : Z) (data : option string) (timeout : option Z) (w : worker)
    : result bool * worker :=
  writeToRemotePort_loop fuel net host port data timeout (now w) w.

(** [utils.portIsOpen]. *)
Definition portIsOpen (fuel : nat) (net : network) (host : string) (port : Z)
    (timeout : option Z) (w : worker) : result bool * worker :=
  writeToRemotePort fuel net host port None timeout w.

(** ** Host Health Prober *)

(** [check_host].  With [check_with_session] the body is wrapped in a bare
    [except:], so whatever the client raises becomes [False]; the session
    id is a fresh [uuid4] and plays no part in the outcome. *)
Definition check_host (fuel : nat) (net : network) (host : string) (port : Z)
    (timeout : option Z) (check_with_session : bool) (w : worker)
    : result bool * worker :=
  if negb check_with_session then portIsOpen fuel net host port timeout w
  else
    let w' := {| now := now w; calls := S (calls w) |} in
    match create_session net host port (calls w) with
    | Some _ => (Ok false, w')
    | None =>
        match destroy_session net host port (calls w) with
        | Some _ => (Ok false, w')
        | None => (Ok true, w')
        end
    end.

(** The closure [check_and_add] of [check_hosts]: [while ntries:] runs as
    long as the integer is not zero, and the loop ends with
    [ntries -= 0]. *)
Fixpoint check_and_add_loop (fuel : nat) (net : network) (port : Z)
    (timeout : option Z) (check_with_session : bool) (ip : string)
    (ntries : Z) (w : worker) : result (option string) :=
  match fuel with
  | O => Running
  | S fuel' =>
      if ntries =? 0 then Ok None
      else
        match check_host fuel' net ip port timeout check_with_session w with
        | (Ok true, _) => Ok (Some ip)
        | (Ok false, w') =>
            check_and_add_loop fuel' net port timeout check_with_session ip
              (ntries - 0) w'
        | (Raise e, _) => Raise e
        | (Running, _) => Running
        end
  end.

Definition check_and_add (fuel : nat) (net : network) (port : Z)
    (timeout : option Z) (check_with_session : bool) (retry : Z)
    (ip : string) : result (option string) :=
  check_and_add_loop fuel net port timeout check_with_session ip retry worker0.

(** [multiprocessing.pool.ThreadPool(processes)] refuses a pool of fewer
    than one thread. *)
Definition ThreadPool (processes : Z) : result unit :=
  if processes <? 1 then Raise ValueError else Ok tt.

(** [tp.map(f, xs)] followed by [close] and [join]: the results in the
    order of [xs], once every call has returned.  The threads do not
    share state; they are combined here in the order of the list. *)
Fixpoint pool_map {A B : Type} (f : A -> result B) (xs : list A)
    : result (list B) :=
  match xs with
  | [] => Ok []
  | x :: xs' => bind (f x) (fun y => bind (pool_map f xs') (fun ys => Ok (y :: ys)))
  end.

(** The test [if ip] of the final comprehension: [None] and the empty
    string are false. *)
Definition truthy (ip : option string) : bool :=
  match ip with
  | Some s => negb (String.eqb s "")
  | None => false
  end.

(** [[ip for ip in up if ip]]. *)
Fixpoint keep_truthy (up : list (option string)) : list string :=
  match up with
  | [] => []
  | Some s :: up' => if truthy (Some s) then s :: keep_truthy up' else keep_truthy up'
  | None :: up' => keep_truthy up'
  end.

(** [check_hosts(ips, port, timeout, check_with_session, retry)]. *)
Definition check_hosts (fuel : nat) (net : network) (ips : list string)
    (port : Z) (timeout : option Z) (check_with_session : bool) (retry : Z)
    : result (list string) :=
  bind (ThreadPool (Z.min 50 (Z.of_nat (List.length ips)))) (fun _ =>
  bind (pool_map (check_and_add fuel net port timeout check_with_session retry) ips)
       (fun up => Ok (keep_truthy up))).

(** A host passed when its [check_and_add] returned it. *)
Definition passed (fuel : nat) (net : network) (port : Z) (timeout : option Z)
    (check_with_session : bool) (retry : Z) (ip : string) : bool :=
  match check_and_add fuel net port timeout check_with_session retry ip with
  | Ok (Some _) => true
  | _ => false
  end.

(** From the state [w], the first [k - 1] calls of [check_host] on [ip]
    answer [False] and the [k]-th answers [True]. *)
Inductive succeeds_at (net : network) (port : Z) (timeout : option Z)
    (check_with_session : bool) (ip : string) : nat -> worker -> Prop :=
  | succeeds_now fuel w w' :
      check_host fuel net ip port timeout check_with_session w = (Ok true, w') ->
      succeeds_at net port timeout check_with_session ip 1 w
  | succeeds_later fuel k w w' :
      check_host fuel net ip port timeout check_with_session w = (Ok false, w') ->
      succeeds_at net port timeout check_with_session ip k w' ->
      succeeds_at net port timeout check_with_session ip (S k) w.

(** ** Python strings *)

(** [s.split(sep)] for a one-character separator. *)
Fixpoint split (sep : ascii) (s : string) : list string :=
  match s with
  | EmptyString => [EmptyString]
  | String c s' =>
      if Ascii.eqb c sep then EmptyString :: split sep s'
      else
        match split sep s' with
        | p :: ps => String c p :: ps
        | [] => [String c EmptyString]
        end
  end.

(** [c in s]. *)
Fixpoint contains (c : ascii) (s : string) : bool :=
  match s with
  | EmptyString => false
  | String c' s' => Ascii.eqb c' c || contains c s'
  end.

Definition is_space (c : ascii) : bool :=
  let n := nat_of_ascii c in
  Nat.eqb n 32 || (Nat.leb 9 n && Nat.leb n 13).

(** [s.split()]: the maximal runs of characters that are not white space. *)
Fixpoint split_ws (s : string) : list string :=
  match s with
  | EmptyString => []
  | String c s' =>
      if is_space c then split_ws s'
      else
        match s' with
        | EmptyString => [String c EmptyString]
        | String c' _ =>
            if is_space c' then String c EmptyString :: split_ws s'
            else
              match split_ws s' with
              | w :: ws => String c w :: ws
              | [] => [String c EmptyString]
              end
        end
  end.

Fixpoint drop_while {A : Type} (p : A -> bool) (l : list A) : list A :=
  match l with
  | [] => []
  | x :: l' => if p x then drop_while p l' else l
  end.

Definition is_slash (c : ascii) : bool := Ascii.eqb c "/"%char.

(** [os.path.dirname] of [posixpath]: the part up to the last slash,
    without its trailing slashes unless it is made of slashes only. *)
Definition dirname (p : string) : string :=
  let head :=
    rev (drop_while (fun c => negb (is_slash c)) (rev (list_ascii_of_string p))) in
  if forallb is_slash head then string_of_list_ascii head
  else string_of_list_ascii (rev (drop_while is_slash (rev head))).

Fixpoint digits (fuel : nat) (n : Z) (acc : string) : string :=
  match fuel with
  | O => acc
  | S fuel' =>
      let acc' := String (ascii_of_nat (48 + Z.to_nat (n mod 10))) acc in
      if n <? 10 then acc' else digits fuel' (n / 10) acc'
  end.

(** [str(n)] for an integer. *)
Definition str_of_Z (n : Z) : string :=
  if n <? 0 then String "-"%char (digits (Z.to_nat (- n) + 1) (- n) "")
  else digits (Z.to_nat n + 1) n "".

(** ['%.3f' % t] for a time [t] kept in milliseconds. *)
Definition format_3f (ms : Z) : string :=
  let a := Z.abs ms in
  let frac := a mod 1000 in
  let pad := if frac <? 10 then "00" else if frac <? 100 then "0" else "" in
  let sign := if ms <? 0 then "-" else "" in
  let whole := str_of_Z (a / 1000) in
  (sign ++ whole ++ "." ++ pad ++ str_of_Z frac)%string.

(** ** Python values *)

(** What [json.load] yields and [json.dump] accepts.  A dictionary keeps
    its items in insertion order; a float is kept as its value in
    thousandths. *)
Local Set Warnings "-register-all".

Inductive pyval : Type :=
  | PyNone
  | PyBool (b : bool)
  | PyInt (n : Z)
  | PyFloat (thousandths : Z)
  | PyStr (s : string)
  | PyList (items : list pyval)
  | PyDict (items : list (string * pyval)).

(** [d[k] = v]. *)
Fixpoint dict_set (k : string) (v : pyval) (d : list (string * pyval))
    : list (string * pyval) :=
  match d with
  | [] => [(k, v)]
  | (k', v') :: d' =>
      if String.eqb k' k then (k, v) :: d' else (k', v') :: dict_set k v d'
  end.

(** [d.get(k)]. *)
Fixpoint dict_get (k : string) (d : list (string * pyval)) : option pyval :=
  match d with
  | [] => None
  | (k', v) :: d' => if String.eqb k' k then Some v else dict_get k d'
  end.

(** The truth value of an object, as [if pg:] tests it. *)
Definition py_truthy (v : pyval) : bool :=
  match v with
  | PyNone => false
  | PyBool b => b
  | PyInt n => negb (n =? 0)
  | PyFloat x => negb (x =? 0)
  | PyStr s => negb (String.eqb s "")
  | PyList l => match l with [] => false | _ => true end
  | PyDict d => match d with [] => false | _ => true end
  end.

Definition is_float (v : pyval) : bool :=
  match v with PyFloat _ => true | _ => false end.

(** ** Execution Monitor *)

(** Modelled from the spec: [dlg.manager.session.SessionStates] is not
    under src/; the spec gives a session the status enumeration
    SCHEDULED, RUNNING, FINISHED, ERROR. *)
Inductive SessionStates : Type := SCHEDULED | RUNNING | FINISHED | ERROR.

Definition SessionStates_eqb (a b : SessionStates) : bool :=
  match a, b with
  | SCHEDULED, SCHEDULED | RUNNING, RUNNING
  | FINISHED, FINISHED | ERROR, ERROR => true
  | _, _ => false
  end.

(** An item of [dc.sessions()]: [session['sessionId']] and
    [session['status']], the status reported by each participant. *)
Record session : Type := {
  sessionId : string;
  status : list (string * SessionStates)
}.

(** The [DataIslandManagerClient] and the file system, as the monitoring
    thread meets them.  The oracles are indexed by the number of requests
    the thread has made so far; [took] is the time a request takes. *)
Record manager : Type := {
  sessions : nat -> result (list session);
  graph_status : nat -> string -> result pyval;
  graph : nat -> string -> result pyval;
  open_append : nat -> string -> option exn;
  path_exists : string -> bool;
  took : nat -> Z
}.

(** What a file has received: [json.dump(v, f)] or [f.write(s)]. *)
Inductive chunk : Type :=
  | Dump (v : pyval)
  | Text (s : string).

(** [os.linesep]. *)
Definition linesep : string := String (ascii_of_nat 10) EmptyString.

Definition GRAPH_MONITOR_INTERVAL : Z := 5000.
Definition DIM_WAIT_TIME : Z := 60000.
Definition MM_WAIT_TIME : Z := DIM_WAIT_TIME.
Definition GRAPH_SUBMIT_WAIT_TIME : Z := 10000.

(** The state of the monitoring thread: its clock, the number of requests
    made, the local [graph_dict] and the two log files. *)
Record monitor_state : Type := {
  clock : Z;
  requests : nat;
  graph_dict : gmap string pyval;
  gfile : list chunk;
  sfile : list chunk
}.

Definition monitor0 : monitor_state :=
  {| clock := 0; requests := 0; graph_dict := ∅; gfile := []; sfile := [] |}.

(** A request was made: the clock advances by what it took. *)
Definition request (m : manager) (st : monitor_state) : monitor_state :=
  {| clock := clock st + took m (requests st); requests := S (requests st);
     graph_dict := graph_dict st; gfile := gfile st; sfile := sfile st |}.

Definition monitor_sleep (d : Z) (st : monitor_state) : monitor_state :=
  {| clock := clock st + d; requests := requests st;
     graph_dict := graph_dict st; gfile := gfile st; sfile := sfile st |}.

(** The end of each pass over a session:
    [dt = time.time() - stt; if dt < GRAPH_MONITOR_INTERVAL: time.sleep(...)]. *)
Definition pace (stt : Z) (st : monitor_state) : monitor_state :=
  let dt := clock st - stt in
  if dt <? GRAPH_MONITOR_INTERVAL then monitor_sleep (GRAPH_MONITOR_INTERVAL - dt) st
  else st.

(** [all(s == SessionStates.FINISHED for s in session_status.values())]. *)
Definition all_finished (s : session) : bool :=
  forallb (fun kv => SessionStates_eqb (snd kv) FINISHED) (status s).

(** The [for session in dc.sessions()] of [monitor_execution_finished]:
    [true] when the function returned from inside the loop. *)
Fixpoint finished_scan (ss : list session) (st : monitor_state)
    : bool * monitor_state :=
  match ss with
  | [] => (false, st)
  | s :: ss' =>
      let stt := clock st in
      if all_finished s then (true, st)
      else finished_scan ss' (pace stt st)
  end.

(** [monitor_execution_finished(host, port)]: [fuel] bounds the number of
    times the [while True] body is entered. *)
Fixpoint monitor_execution_finished (fuel : nat) (m : manager)
    (st : monitor_state) : result unit * monitor_state :=
  match fuel with
  | O => (Running, st)
  | S fuel' =>
      let st1 := request m st in
      match sessions m (requests st) with
      | Ok ss =>
          match finished_scan ss st1 with
          | (true, st2) => (Ok tt, st2)
          | (false, st2) => monitor_execution_finished fuel' m st2
          end
      | Raise e => (Raise e, st1)
      | Running => (Running, st1)
      end
  end.

Definition append (cs : list chunk) (file : list chunk) : list chunk :=
  file ++ cs.

(** The body of [for session in dc.sessions()] in [monitor_graph]. *)
Definition monitor_session (m : manager) (gname sname : string) (s : session)
    (st : monitor_state) : result unit * monitor_state :=
  let stt := clock st in
  let ssid := sessionId s in
  let wgs := dict_set "ssid" (PyStr ssid) [] in
  let st1 := request m st in
  match graph_status m (requests st) ssid with
  | Raise e => (Raise e, st1)
  | Running => (Running, st1)
  | Ok gs =>
      let wgs := dict_set "gs" gs wgs in
      let time_str := format_3f (clock st1) in
      let wgs := dict_set "ts" (PyStr time_str) wgs in
      let seen :=
        match graph_dict st1 !! ssid with
        | Some _ => (Ok tt, st1)
        | None =>
            let st2 := request m st1 in
            match graph m (requests st1) ssid with
            | Raise e => (Raise e, st2)
            | Running => (Running, st2)
            | Ok g =>
                let wg := dict_set "g" g (dict_set "ssid" (PyStr ssid) []) in
                let st3 :=
                  {| clock := clock st2; requests := S (requests st2);
                     graph_dict := <[ssid := g]> (graph_dict st2);
                     gfile := gfile st2; sfile := sfile st2 |} in
                match open_append m (requests st2) gname with
                | Some e => (Raise e, st3)
                | None =>
                    (Ok tt,
                     {| clock := clock st3; requests := requests st3;
                        graph_dict := graph_dict st3;
                        gfile := append [Dump (PyDict wg); Text linesep] (gfile st3);
                        sfile := sfile st3 |})
                end
            end
        end in
      match seen with
      | (Ok _, st4) =>
          let st5 :=
            {| clock := clock st4; requests := S (requests st4);
               graph_dict := graph_dict st4; gfile := gfile st4;
               sfile := sfile st4 |} in
          match open_append m (requests st4) sname with
          | Some e => (Raise e, st5)
          | None =>
              (Ok tt,
               pace stt
                 {| clock := clock st5; requests := requests st5;
                    graph_dict := graph_dict st5; gfile := gfile st5;
                    sfile := append [Dump (PyDict wgs); Text linesep] (sfile st5) |})
          end
      | r => r
      end
  end.

Fixpoint monitor_sessions (m : manager) (gname sname : string)
    (ss : list session) (st : monitor_state) : result unit * monitor_state :=
  match ss with
  | [] => (Ok tt, st)
  | s :: ss' =>
      match monitor_session m gname sname s st with
      | (Ok _, st') => monitor_sessions m gname sname ss' st'
      | r => r
      end
  end.

Fixpoint monitor_graph_loop (fuel : nat) (m : manager) (gname sname : string)
    (st : monitor_state) : result unit * monitor_state :=
  match fuel with
  | O => (Running, st)
  | S fuel' =>
      let st1 := request m st in
      match sessions m (requests st) with
      | Ok ss =>
          match monitor_sessions m gname sname ss st1 with
          | (Ok _, st2) => monitor_graph_loop fuel' m gname sname st2
          | r => r
          end
      | Raise e => (Raise e, st1)
      | Running => (Running, st1)
      end
  end.

(** [monitor_graph(host, port, dump_path)].  The state keeps what each
    of the two logs has received. *)
Definition monitor_graph (fuel : nat) (m : manager) (dump_path : string)
    (st : monitor_state) : result unit * monitor_state :=
  let fp := dirname dump_path in
  if negb (path_exists m fp) then (Ok tt, st)
  else
    let gfile := (dump_path ++ "_g.log")%string in
    let sfile := (dump_path ++ "_s.log")%string in
    monitor_graph_loop fuel m gfile sfile st.

(** ** Command-line options *)

(** The values [parser.parse_args()] hands to [main], one field per
    [add_option]; an option without a default is [None] when omitted. *)
Module opts.
Record t : Type := {
  log_dir : option string;
  monitor_host : option string;
  monitor_port : Z;
  verbose_level : Z;
  zerorun : bool;
  app : Z;
  max_threads : Z;
  logical_graph : option string;
  physical_graph : option string;
  num_islands : Z;
  dump : bool;
  loc : string;
  part_algo : string;
  algo_params : option (list string);
  ssid : string;
  all_nics : bool;
  check_interfaces : bool;
  use_ifconfig : bool;
  check_with_session : bool;
  event_listeners : string;
  sleep_after_execution : Z;
  pg_modifiers : option string;
  remote_mechanism : string
}.
End opts.

(** ** Graph Assembler *)

(** A modifier function [func(pgt, *args, **kwargs)].  The graph is a
    mutable object shared with the caller: a call answers with the state
    it leaves that object in, and with the value it returns. *)
Definition modifier : Type :=
  pyval -> list string -> gmap string string -> result (pyval * pyval).

(** The collaborators of the assembler that are not under src/:
    [utils.fname_to_pipname]; [tool.unroll], [tool.parse_partition_algo_params],
    [pg_generator.partition] and [to_pg_spec] taken together ([make_pgt]:
    logical graph, session id, zerorun, app, algorithm parameters, algorithm,
    number of partitions, number of islands); [json.load] on an opened path;
    [utils.get_symbol], which resolves a name to a function or raises;
    [tool.resource_map]; writing a JSON file; and the ports of
    [dlg.manager.constants]. *)
Record tools : Type := {
  fname_to_pipname : string -> string;
  make_pgt : string -> string -> bool -> option string -> option (list string)
             -> string -> Z -> Z -> result pyval;
  json_load : string -> result pyval;
  get_symbol : string -> result modifier;
  resource_map : pyval -> list string -> string -> Z -> result pyval;
  json_write : string -> pyval -> option exn;
  NODE_DEFAULT_REST_PORT : Z;
  ISLAND_DEFAULT_REST_PORT : Z;
  MASTER_DEFAULT_REST_PORT : Z
}.

(** The state of an assembly: the object [pgt] refers to, the modifier
    calls made so far (name, positional and named arguments), and the
    files written. *)
Record assembly : Type := {
  pgt : pyval;
  called : list (string * list string * gmap string string);
  written : list (string * pyval)
}.

(** [dict(map(lambda x: x.split('='), items))]: every item must split in
    exactly two, and a later key replaces an earlier one. *)
Fixpoint make_kwargs (items : list string) (d : gmap string string)
    : result (gmap string string) :=
  match items with
  | [] => Ok d
  | x :: items' =>
      match split "="%char x with
      | [k; v] => make_kwargs items' (<[k := v]> d)
      | _ => Raise ValueError
      end
  end.

(** [modify_pg(pgt, modifier)]: the value is what [func] returned. *)
Definition modify_pg (t : tools) (st : assembly) (modifier : string)
    : result pyval * assembly :=
  let parts := split ","%char modifier in
  match get_symbol t (hd "" parts) with
  | Raise e => (Raise e, st)
  | Running => (Running, st)
  | Ok func =>
      let args := List.filter (fun x => negb (contains "="%char x)) (tl parts) in
      match make_kwargs (List.filter (contains "="%char) (tl parts)) ∅ with
      | Raise e => (Raise e, st)
      | Running => (Running, st)
      | Ok kwargs =>
          let st' := {| pgt := pgt st;
                        called := called st ++ [(hd "" parts, args, kwargs)];
                        written := written st |} in
          match func (pgt st) args kwargs with
          | Ok (mutated, value) =>
              (Ok value, {| pgt := mutated; called := called st';
                            written := written st' |})
          | Raise e => (Raise e, st')
          | Running => (Running, st')
          end
      end
  end.

(** [for modifier in ...: modify_pg(pgt, modifier)]: the value of each
    call is dropped. *)
Fixpoint apply_modifiers (t : tools) (modifiers : list string) (st : assembly)
    : result unit * assembly :=
  match modifiers with
  | [] => (Ok tt, st)
  | m :: ms =>
      match modify_pg t st m with
      | (Ok _, st') => apply_modifiers t ms st'
      | (Raise e, st') => (Raise e, st')
      | (Running, st') => (Running, st')
      end
  end.

Definition apps : list (option string) :=
  [None; Some "test.graphsRepository.SleepApp";
   Some "test.graphsRepository.SleepAndCopyApp"].

(** [xs[i]] on a tuple: a negative index counts from the end. *)
Definition tuple_index {A : Type} (xs : list A) (i : Z) : result A :=
  let n := Z.of_nat (List.length xs) in
  let j := if i <? 0 then i + n else i in
  if (0 <=? j) && (j <? n) then
    match nth_error xs (Z.to_nat j) with
    | Some x => Ok x
    | None => Raise IndexError
    end
  else Raise IndexError.

(** [os.path.join(a, b)] of [posixpath]. *)
Definition path_join (a b : string) : string :=
  match b with
  | String "/"%char _ => b
  | _ =>
      match rev (list_ascii_of_string a) with
      | [] => b
      | c :: _ => if is_slash c then (a ++ b)%string else (a ++ "/" ++ b)%string
      end
  end.

(** [a or b] on optional strings. *)
Definition str_or (a b : option string) : option string :=
  if truthy a then a else b.

(** The first half of [get_pg]: the graph template, made from the logical
    graph or read from the physical graph. *)
Definition load_pgt (t : tools) (o : opts.t) (nms dims : list string)
    : result pyval :=
  let num_nms := Z.of_nat (List.length nms) in
  let num_dims := Z.of_nat (List.length dims) in
  if truthy (opts.logical_graph o) then
    bind (tuple_index apps (opts.app o)) (fun a =>
    make_pgt t (default "" (opts.logical_graph o)) (opts.ssid o)
      (opts.zerorun o) a (opts.algo_params o) (opts.part_algo o)
      (num_nms + num_dims) num_dims)
  else json_load t (default "" (opts.physical_graph o)).

(** The last part of [get_pg], after the modifiers: keep the node
    managers that are up, map the graph onto the hosts, write
    [pg.json]. *)
Definition map_and_store (fuel : nat) (net : network) (t : tools) (o : opts.t)
    (nms dims : list string) (st : assembly) : result (option pyval) * assembly :=
  let num_dims := Z.of_nat (List.length dims) in
  let fname := default "" (str_or (opts.logical_graph o) (opts.physical_graph o)) in
  let pip_name := fname_to_pipname t fname in
  match check_hosts fuel net nms (NODE_DEFAULT_REST_PORT t)
          (Some MM_WAIT_TIME) (opts.check_with_session o) 1 with
  | Raise e => (Raise e, st)
  | Running => (Running, st)
  | Ok nms' =>
      match resource_map t (pgt st) (dims ++ nms') pip_name num_dims with
      | Raise e => (Raise e, st)
      | Running => (Running, st)
      | Ok pg =>
          match opts.log_dir o with
          | None => (Raise TypeError, st)
          | Some dir =>
              let path := path_join dir "pg.json" in
              match json_write t path pg with
              | Some e => (Raise e, st)
              | None =>
                  (Ok (Some pg),
                   {| pgt := pgt st; called := called st;
                      written := written st ++ [(path, pg)] |})
              end
          end
      end
  end.

(** [get_pg(opts, nms, dims)]. *)
Definition get_pg (fuel : nat) (net : network) (t : tools) (o : opts.t)
    (nms dims : list string) (st : assembly) : result (option pyval) * assembly :=
  if negb (truthy (opts.logical_graph o)) && negb (truthy (opts.physical_graph o))
  then (Ok None, st)
  else
    match load_pgt t o nms dims with
    | Raise e => (Raise e, st)
    | Running => (Running, st)
    | Ok g =>
        let st0 := {| pgt := g; called := called st; written := written st |} in
        match opts.pg_modifiers o with
        | None => (Raise AttributeError, st0)
        | Some spec =>
            match apply_modifiers t (split ":"%char spec) st0 with
            | (Raise e, st1) => (Raise e, st1)
            | (Running, st1) => (Running, st1)
            | (Ok _, st1) => map_and_store fuel net t o nms dims st1
            end
        end
    end.



(** The name of a modifier specification: [modifier.split(',')[0]]. *)
Definition modifier_name (m : string) : string := hd "" (split ","%char m).

(** The name under which a modifier call was made. *)
Definition call_name (c : string * list string * gmap string string) : string :=
  fst (fst c).

(** ** Interface discovery *)

(** The cluster topology of [remotes.MPIRemote] and [remotes.SlurmRemote]
    (not under src/), as [main] reads it. *)
Record remote : Type := {
  rank : Z;
  size : Z;
  my_ip : string;
  is_nm : bool;
  is_proxy : bool;
  is_highest_level_manager : bool;
  hl_mgr_ip : string;
  nm_ips : list string;
  dim_ips : list string;
  recv_dim_nodes : result (list string)
}.

(** The machine the process runs on: the output of the [ifconfig] command,
    [utils.get_local_ip_addr()], [os.path.exists], [os.makedirs], the
    topology provider, and how [ProxyServer.loop()] ends. *)
Record site : Type := {
  ifconfig : result string;
  get_local_ip_addr : result (list (list string));
  file_exists : string -> bool;
  makedirs : string -> option exn;
  make_remote : opts.t -> string -> result remote;
  proxy_loop : option exn
}.

Definition newline : ascii := ascii_of_nat 10.

(** [get_ip_via_ifconfig(loc)]: the [try] turns every failure of the
    parsing into the string ['None']. *)
Definition get_ip_via_ifconfig (s : site) (loc : string) : result string :=
  bind (ifconfig s) (fun out =>
  bind (if String.eqb loc "Pawsey" then Ok 1%nat
        else if String.eqb loc "Tianhe2" then Ok 18%nat
        else Raise (OtherError ("Unknown deploy location: " ++ loc)%string))
       (fun ln =>
  match nth_error (split newline out) ln with
  | None => Ok "None"
  | Some line =>
      match nth_error (split_ws line) 1 with
      | None => Ok "None"
      | Some field =>
          match nth_error (split ":"%char field) 1 with
          | None => Ok "None"
          | Some ip => Ok ip
          end
      end
  end)).

(** [get_ip_via_netifaces(loc)]: [utils.get_local_ip_addr()[0][0]]. *)
Definition get_ip_via_netifaces (s : site) (loc : string) : result string :=
  bind (get_local_ip_addr s) (fun addrs =>
  match addrs with
  | [] => Raise IndexError
  | first :: _ =>
      match first with
      | [] => Raise IndexError
      | ip :: _ => Ok ip
      end
  end).

(** [get_remote(opts)]. *)
Definition get_remote (s : site) (o : opts.t) : result remote :=
  let find_ip := if opts.use_ifconfig o then get_ip_via_ifconfig else get_ip_via_netifaces in
  bind (find_ip s (opts.loc o)) (fun my_ip => make_remote s o my_ip).

(** ** The process and its trace *)

(** What the process does to the outside, in the order it does it. *)
Inductive event : Type :=
  | Print (s : string)
  | ParserError (msg : string)
  | Makedirs (path : string)
  | DlgNM (args : list string)
  | StartProcess (name : string) (args : list string)
  | DlgMM (args : list string)
  | ProxyServer (dlg_host : string) (monitor_host : option string)
                (dlg_port monitor_port : Z)
  | StartThread (target : string)
  | Submit (host : string) (port : Z) (pg : pyval)
  | SendDimNodes (pg : option pyval)
  | Sleep (seconds : Z)
  | TerminateOrKill (timeout : Z)
  | WaitOrKill (timeout period : Z).

(** A manager is started by [cmdline.dlgNM], [tool.start_process] or
    [cmdline.dlgMM]. *)
Definition starts_manager (e : event) : bool :=
  match e with
  | DlgNM _ | StartProcess _ _ | DlgMM _ => true
  | _ => false
  end.

Record world : Type := {
  the_network : network;
  the_tools : tools;
  the_manager : manager;
  the_site : site
}.

Record process : Type := {
  events : list event;
  assembled : assembly;
  monitored : monitor_state
}.

Definition assembly0 : assembly := {| pgt := PyNone; called := []; written := [] |}.

Definition process0 : process :=
  {| events := []; assembled := assembly0; monitored := monitor0 |}.

Definition M (A : Type) : Type := process -> result A * process.

Definition ret {A : Type} (a : A) : M A := fun p => (Ok a, p).

Definition raise {A : Type} (e : exn) : M A := fun p => (Raise e, p).

Definition lift {A : Type} (r : result A) : M A := fun p => (r, p).

Definition and_then {A B : Type} (c : M A) (k : A -> M B) : M B :=
  fun p =>
    match c p with
    | (Ok a, p') => k a p'
    | (Raise e, p') => (Raise e, p')
    | (Running, p') => (Running, p')
    end.

Definition emit (e : event) : M unit :=
  fun p => (Ok tt, {| events := events p ++ [e]; assembled := assembled p;
                      monitored := monitored p |}).

Notation "'let!' x ':=' c 'in' k" := (and_then c (fun x => k))
  (at level 10, x name, c at level 200, k at level 200).
Notation "c ;; k" := (and_then c (fun _ => k))
  (at level 100, k at level 200, right associativity).

(** [sys.exit(code)]. *)
Definition sys_exit {A : Type} (code : Z) : M A := raise (SystemExit code).

(** [parser.error(msg)]: the message goes to stderr and the process exits
    with status 2. *)
Definition parser_error {A : Type} (msg : string) : M A :=
  emit (ParserError msg) ;; sys_exit 2.

(** The status the process ends with. *)
Definition exit_status (r : result unit) : option Z :=
  match r with
  | Ok _ => Some 0
  | Raise (SystemExit code) => Some code
  | Raise _ => Some 1
  | Running => None
  end.

Definition with_assembly {A : Type} (f : assembly -> result A * assembly) : M A :=
  fun p =>
    let '(r, a) := f (assembled p) in
    (r, {| events := events p; assembled := a; monitored := monitored p |}).

Definition with_monitor {A : Type} (f : monitor_state -> result A * monitor_state)
    : M A :=
  fun p =>
    let '(r, m) := f (monitored p) in
    (r, {| events := events p; assembled := assembled p; monitored := m |}).

(** ** Managed processes *)

(** ['v' * logv]. *)
Definition verbosity (logv : Z) : string :=
  string_of_list_ascii (repeat "v"%char (Z.to_nat logv)).

(** [start_node_mgr]: a call of [cmdline.dlgNM] with these arguments. *)
Definition start_node_mgr (log_dir my_ip : string) (logv max_threads : Z)
    (host : option string) (event_listeners : string) : M unit :=
  let host := if truthy host then default "" host else "0.0.0.0" in
  let lv := verbosity logv in
  emit (DlgNM ["-l"; log_dir; ("-" ++ lv)%string; "-H"; host; "-m"; "1024"; "-t";
               str_of_Z max_threads; "--no-dlm";
               "--event-listeners"; event_listeners]).

(** [start_dim]: [tool.start_process('dim', args)]. *)
Definition start_dim (node_list : list string) (log_dir origin_ip : string)
    (logv : Z) : M unit :=
  let lv := verbosity logv in
  emit (StartProcess "dim"
          ["-l"; log_dir; ("-" ++ lv)%string; "-N"; String.concat "," node_list;
           "-H"; "0.0.0.0"; "-m"; "2048"]).

(** [start_mm]: a call of [cmdline.dlgMM]. *)
Definition start_mm (node_list : list string) (log_dir : string) (logv : Z)
    : M unit :=
  let lv := verbosity logv in
  emit (DlgMM ["-l"; log_dir; "-N"; String.concat "," node_list;
               ("-" ++ lv)%string; "-H"; "0.0.0.0"; "-m"; "2048"]).

(** [start_proxy]: either way the loop fails, the process exits with 1. *)
Definition start_proxy (s : site) (loc dlg_host : string) (dlg_port : Z)
    (monitor_host : option string) (monitor_port : Z) : M unit :=
  emit (ProxyServer dlg_host monitor_host dlg_port monitor_port) ;;
  match proxy_loop s with
  | None => ret tt
  | Some KeyboardInterrupt => sys_exit 1
  | Some (SystemExit code) => raise (SystemExit code)
  | Some _ => sys_exit 1
  end.

(** ** Execution Coordinator *)

(** [bool(s)] of an optional string. *)
Definition given (s : option string) : bool := truthy s.

(** [str(x)] of an option that may be [None]. *)
Definition str_opt (s : option string) : string := default "None" s.

(** The closure [submit_and_monitor] of [main], the body of the thread
    started by the owner of a single island: [tool.submit], then
    [monitor_graph] when [--dump] was given. *)
Definition submit_and_monitor (fuel : nat) (w : world) (options : opts.t)
    (log_dir : string) (pg : pyval) : M unit :=
  let host := "localhost" in
  let port := ISLAND_DEFAULT_REST_PORT (the_tools w) in
  emit (Submit host port pg) ;;
  if opts.dump options then
    let dump_path := (log_dir ++ "/monitor")%string in
    with_monitor (monitor_graph fuel (the_manager w) dump_path)
  else ret tt.

(** The closure [submit] of [main], the body of the thread started by the
    highest-level manager of several islands: the graph is submitted
    whether or not the master manager was found up. *)
Definition submit (fuel : nat) (w : world) (pg : option pyval) : M unit :=
  let port := MASTER_DEFAULT_REST_PORT (the_tools w) in
  let! up := lift
    (fst (check_host fuel (the_network w) "localhost" port
            (Some GRAPH_SUBMIT_WAIT_TIME) false worker0)) in
  emit (Submit "localhost" port (default PyNone pg)).

(** [main()], from the parsed options on. *)
Definition main (fuel : nat) (w : world) (options : opts.t) : M unit :=
  let s := the_site w in
  let t := the_tools w in
  (if opts.check_interfaces options then
     let! a := lift (get_ip_via_netifaces s "") in
     emit (Print ("From netifaces: " ++ a)%string) ;;
     let! b := lift (get_ip_via_ifconfig s "Pawsey") in
     emit (Print ("From ifconfig: " ++ b)%string) ;;
     sys_exit 0
   else ret tt) ;;
  (if Bool.eqb (given (opts.logical_graph options)) (given (opts.physical_graph options))
   then parser_error "Either a logical graph or physical graph filename must be specified"
   else ret tt) ;;
  (match opts.logical_graph options with
   | Some p =>
       if given (Some p) && negb (file_exists s p)
       then parser_error ("Cannot locate graph file at '" ++ p ++ "'")%string
       else ret tt
   | None => ret tt
   end) ;;
  (match opts.physical_graph options with
   | Some p =>
       if given (Some p) && negb (file_exists s p)
       then parser_error ("Cannot locate graph file at '" ++ p ++ "'")%string
       else ret tt
   | None => ret tt
   end) ;;
  (match opts.monitor_host options with
   | Some _ =>
       if opts.num_islands options >? 1
       then parser_error "We do not support proxy monitor multiple islands yet"
       else ret tt
   | None => ret tt
   end) ;;
  let! remote := lift (get_remote s options) in
  let log_dir := (str_opt (opts.log_dir options) ++ "/" ++ str_of_Z (rank remote))%string in
  emit (Makedirs log_dir) ;;
  (match makedirs s log_dir with Some e => raise e | None => ret tt end) ;;
  let logv := Z.max (Z.min 3 (opts.verbose_level options)) 1 in
  if is_nm remote then
    start_node_mgr log_dir (my_ip remote) logv (opts.max_threads options)
      (if opts.all_nics options then None else Some (my_ip remote))
      (opts.event_listeners options)
  else if opts.num_islands options =? 1 then
    let! nm_proc :=
      (if is_proxy remote then
         let! up := lift
           (fst (portIsOpen fuel (the_network w) (hl_mgr_ip remote)
                   (ISLAND_DEFAULT_REST_PORT t) (Some 100000) worker0)) in
         (if (up : bool) then
            start_proxy s (opts.loc options) (hl_mgr_ip remote)
              (ISLAND_DEFAULT_REST_PORT t) (opts.monitor_host options)
              (opts.monitor_port options)
          else ret tt) ;;
         ret false
       else
         let! pg := with_assembly
           (get_pg fuel (the_network w) t options (nm_ips remote) (dim_ips remote)) in
         (if match pg with Some v => py_truthy v | None => false end
          then emit (StartThread "submit_and_monitor") else ret tt) ;;
         start_dim (nm_ips remote) log_dir (my_ip remote) logv ;;
         with_monitor (monitor_execution_finished fuel (the_manager w)) ;;
         emit (Sleep (opts.sleep_after_execution options)) ;;
         ret true) in
    if (nm_proc : bool) then emit (TerminateOrKill 5) else ret tt
  else if is_highest_level_manager remote then
    let! pg := with_assembly
      (get_pg fuel (the_network w) t options (nm_ips remote) (dim_ips remote)) in
    emit (SendDimNodes pg) ;;
    let! dim_ips_up := lift
      (check_hosts fuel (the_network w) (dim_ips remote)
         (ISLAND_DEFAULT_REST_PORT t) (Some MM_WAIT_TIME) false 10) in
    emit (StartThread "submit") ;;
    start_mm (dim_ips remote) log_dir logv
  else
    let! nodes := lift (recv_dim_nodes remote) in
    start_dim nodes log_dir (my_ip remote) logv ;;
    emit (WaitOrKill 100000000 5).

(** ** Reading the snapshot logs back *)

(** A log made of records: each one a [json.dump] followed by
    [os.linesep]. *)
Definition lines (records : list pyval) : list chunk :=
  flat_map (fun v => [Dump v; Text linesep]) records.

(** A record of the graph log: an object with the session id under
    ['ssid'], the graph under ['g'], and no ['ts']. *)
Definition is_graph_record (v : pyval) : bool :=
  match v with
  | PyDict d =>
      match dict_get "ssid" d, dict_get "g" d, dict_get "ts" d with
      | Some (PyStr _), Some _, None => true
      | _, _, _ => false
      end
  | _ => false
  end.

(** A record of the status log: an object with the session id under
    ['ssid'], the status under ['gs'], and a string under ['ts']. *)
Definition is_status_record (v : pyval) : bool :=
  match v with
  | PyDict d =>
      match dict_get "ssid" d, dict_get "gs" d, dict_get "ts" d with
      | Some (PyStr _), Some _, Some (PyStr _) => true
      | _, _, _ => false
      end
  | _ => false
  end.

(** An object that holds a float under one of its keys, as a record with
    a float time stamp would. *)
Definition has_float_timestamp (v : pyval) : bool :=
  match v with
  | PyDict d => existsb (fun kv => is_float (snd kv)) d
  | _ => false
  end.

Definition logs_ok (st : monitor_state) : Prop :=
  (exists gs, gfile st = lines gs /\ forallb is_graph_record gs = true)
  /\ (exists ss, sfile st = lines ss /\ forallb is_status_record ss = true).

(** ** Bounds used in the properties *)

(** A bound on the passes [writeToRemotePort] still makes through its loop
    when [left] milliseconds of a positive timeout remain: every refused
    attempt is followed by a sleep of 100 ms. *)
Definition passes_left (left : Z) : nat :=
  if left <=? 0 then 1%nat else (Z.to_nat (left / 100) + 2)%nat.

(** A call that is over: it has returned or raised. *)
Definition settled {A : Type} (r : result A) : Prop :=
  match r with
  | Running => False
  | _ => True
  end.

(** A call that has given no value: it is still running, or it raised. *)
Definition no_value {A : Type} (r : result A) : Prop :=
  match r with
  | Ok _ => False
  | _ => True
  end.

(** ** The rest of [dfms/utils.py] *)

(** [s.replace(old, new)] for a one-character [old]. *)
Fixpoint replace_char (old : ascii) (new : string) (s : string) : string :=
  match s with
  | EmptyString => EmptyString
  | String c s' =>
      if Ascii.eqb c old then (new ++ replace_char old new s')%string
      else String c (replace_char old new s')
  end.

Definition squote : ascii := "'"%char.
Definition dquote : ascii := ascii_of_nat 34.
Definition backslash : ascii := "\"%char.

(** [escapeQuotes(s, singleQuotes, doubleQuotes)]: a single quote becomes
    the four characters quote, backslash, quote, quote; a double quote
    becomes backslash, double quote. *)
Definition escapeQuotes (s : string) (singleQuotes doubleQuotes : bool) : string :=
  let s :=
    if singleQuotes
    then replace_char squote
           (String squote (String backslash (String squote (String squote EmptyString)))) s
    else s in
  let s :=
    if doubleQuotes
    then replace_char dquote (String backslash (String dquote EmptyString)) s
    else s in
  s.

(** The number of occurrences of a character. *)
Fixpoint count_char (c : ascii) (s : string) : nat :=
  match s with
  | EmptyString => O
  | String c' s' => ((if Ascii.eqb c' c then 1 else 0) + count_char c s')%nat
  end.

(** Every double quote of [s] comes right after a backslash; [after] tells
    whether the character before [s] is one. *)
Fixpoint dquotes_escaped (after : bool) (s : string) : bool :=
  match s with
  | EmptyString => true
  | String c s' =>
      (if Ascii.eqb c dquote then after else true)
      && dquotes_escaped (Ascii.eqb c backslash) s'
  end.

(** The process environment and the directories that exist: [os.environ],
    [os.path.expanduser("~")], [os.path.exists], and the calls made to
    [os.makedirs], which may fail. *)
Record disk : Type := {
  environ : gmap string string;
  home : string;
  present : gset string;
  makedirs_fails : string -> option exn;
  made : list string
}.

(** The directories above [p], nearest first. *)
Fixpoint parents (fuel : nat) (p : string) : list string :=
  match fuel with
  | O => []
  | S fuel' =>
      let d := dirname p in
      if String.eqb d p || String.eqb d "" then [] else d :: parents fuel' d
  end.

(** [os.makedirs(path)]: the directory and the missing ones above it. *)
Definition os_makedirs (path : string) (d : disk) : result unit * disk :=
  match makedirs_fails d path with
  | Some e => (Raise e, d)
  | None =>
      (Ok tt,
       {| environ := environ d; home := home d;
          present := {[path]} ∪ list_to_set (parents (String.length path) path)
                     ∪ present d;
          makedirs_fails := makedirs_fails d;
          made := made d ++ [path] |})
  end.

(** [getDfmsDir()]. *)
Definition getDfmsDir (d : disk) : string :=
  match environ d !! "XDG_RUNTIME_DIR" with
  | Some runtime => path_join runtime "dfms"
  | None => path_join (home d) ".dfms"
  end.

(** [createDirIfMissing(path)]. *)
Definition createDirIfMissing (path : string) (d : disk) : result unit * disk :=
  if decide (path ∈ present d) then (Ok tt, d) else os_makedirs path d.

(** [getDfmsPidDir(createIfMissing)]. *)
Definition getDfmsPidDir (createIfMissing : bool) (d : disk) : result string * disk :=
  let path := path_join (getDfmsDir d) "pid" in
  if createIfMissing then
    match createDirIfMissing path d with
    | (Ok _, d') => (Ok path, d')
    | (Raise e, d') => (Raise e, d')
    | (Running, d') => (Running, d')
    end
  else (Ok path, d).

(** [getDfmsLogsDir(createIfMissing)]. *)
Definition getDfmsLogsDir (createIfMissing : bool) (d : disk) : result string * disk :=
  let path := path_join (getDfmsDir d) "logs" in
  if createIfMissing then
    match createDirIfMissing path d with
    | (Ok _, d') => (Ok path, d')
    | (Raise e, d') => (Raise e, d')
    | (Running, d') => (Running, d')
    end
  else (Ok path, d).

(** ** Reading records *)

(** The session id a record carries under ['ssid']. *)
Definition record_ssid (v : pyval) : option string :=
  match v with
  | PyDict d =>
      match dict_get "ssid" d with
      | Some (PyStr s) => Some s
      | _ => None
      end
  | _ => None
  end.

(** The graph log holds records of distinct sessions, all of them in
    [graph_dict]. *)
Definition graph_once (st : monitor_state) : Prop :=
  exists gs,
    gfile st = lines gs
    /\ NoDup (omap record_ssid gs)
    /\ forall s, s ∈ omap record_ssid gs -> is_Some (graph_dict st !! s).

(** ** Writing a modifier specification *)

(** A string free of commas and of equal signs. *)
Definition plain (s : string) : bool :=
  negb (contains ","%char s) && negb (contains "="%char s).

(** A named argument as it is written: [key=value]. *)
Definition named_argument (kv : string * string) : string :=
  (fst kv ++ "=" ++ snd kv)%string.

(** The specification [name,arg1,...,key1=value1,...]. *)
Definition join_modifier (name : string) (args : list string)
    (named : list (string * string)) : string :=
  String.concat "," (name :: args ++ map named_argument named).

(** The dictionary of the named arguments: a later key replaces an
    earlier one. *)
Definition kwargs_of (named : list (string * string)) : gmap string string :=
  fold_left (fun d kv => <[fst kv := snd kv]> d) named ∅.


(** ** The two halves of [main] *)

(** A graph file that is named and cannot be found. *)
Definition missing (s : site) (path : option string) : bool :=
  match path with
  | Some p => given (Some p) && negb (file_exists s p)
  | None => false
  end.

(** The options [main] refuses with [parser.error]: not exactly one
    graph, a graph file that does not exist, or a monitor host together
    with several islands. *)
Definition refused (s : site) (options : opts.t) : bool :=
  Bool.eqb (given (opts.logical_graph options)) (given (opts.physical_graph options))
  || missing s (opts.logical_graph options)
  || missing s (opts.physical_graph options)
  || match opts.monitor_host options with
     | Some _ => opts.num_islands options >? 1
     | None => false
     end.

(** What [main] does once it has the topology [remote], from the making
    of its log directory on. *)
Definition dispatch (fuel : nat) (w : world) (options : opts.t) (remote : remote)
    : M unit :=
  let s := the_site w in
  let t := the_tools w in
  let log_dir := (str_opt (opts.log_dir options) ++ "/" ++ str_of_Z (rank remote))%string in
  emit (Makedirs log_dir) ;;
  (match makedirs s log_dir with Some e => raise e | None => ret tt end) ;;
  let logv := Z.max (Z.min 3 (opts.verbose_level options)) 1 in
  if is_nm remote then
    start_node_mgr log_dir (my_ip remote) logv (opts.max_threads options)
      (if opts.all_nics options then None else Some (my_ip remote))
      (opts.event_listeners options)
  else if opts.num_islands options =? 1 then
    let! nm_proc :=
      (if is_proxy remote then
         let! up := lift
           (fst (portIsOpen fuel (the_network w) (hl_mgr_ip remote)
                   (ISLAND_DEFAULT_REST_PORT t) (Some 100000) worker0)) in
         (if (up : bool) then
            start_proxy s (opts.loc options) (hl_mgr_ip remote)
              (ISLAND_DEFAULT_REST_PORT t) (opts.monitor_host options)
              (opts.monitor_port options)
          else ret tt) ;;
         ret false
       else
         let! pg := with_assembly
           (get_pg fuel (the_network w) t options (nm_ips remote) (dim_ips remote)) in
         (if match pg with Some v => py_truthy v | None => false end
          then emit (StartThread "submit_and_monitor") else ret tt) ;;
         start_dim (nm_ips remote) log_dir (my_ip remote) logv ;;
         with_monitor (monitor_execution_finished fuel (the_manager w)) ;;
         emit (Sleep (opts.sleep_after_execution options)) ;;
         ret true) in
    if (nm_proc : bool) then emit (TerminateOrKill 5) else ret tt
  else if is_highest_level_manager remote then
    let! pg := with_assembly
      (get_pg fuel (the_network w) t options (nm_ips remote) (dim_ips remote)) in
    emit (SendDimNodes pg) ;;
    let! dim_ips_up := lift
      (check_hosts fuel (the_network w) (dim_ips remote)
         (ISLAND_DEFAULT_REST_PORT t) (Some MM_WAIT_TIME) false 10) in
    emit (StartThread "submit") ;;
    start_mm (dim_ips remote) log_dir logv
  else
    let! nodes := lift (recv_dim_nodes remote) in
    start_dim nodes log_dir (my_ip remote) logv ;;
    emit (WaitOrKill 100000000 5).

(** ** The passes of the retry loop, seen from the caller *)

(** The test at the head of a pass of [writeToRemotePort]
    ([thisTimeout <= 0]), [elapsed] milliseconds after the call. *)
Definition expired_at (timeout : option Z) (elapsed : Z) : bool :=
  match timeout with
  | Some t => negb (t =? 0) && (t - elapsed <=? 0)
  | None => false
  end.

(** The test made after a refused connection
    ([time.time() - start > timeout]). *)
Definition late_at (timeout : option Z) (elapsed : Z) : bool :=
  match timeout with
  | Some t => elapsed >? t
  | None => false
  end.

(** The clock at the head of pass [k] of a call that started in state [w],
    when every earlier pass ended in the [time.sleep(0.1)] of a refused
    connection: each of them took the time of its attempt and 100 ms. *)
Fixpoint clock_at (net : network) (host : string) (port : Z) (w : worker)
    (k : nat) : Z :=
  match k with
  | O => now w
  | S k' =>
      clock_at net host port w k'
      + snd (connect net host port (calls w + k')%nat) + 100
  end.

(** ** Scenarios *)

(** Three hosts of which [h2] never answers: a connection to it times
    out and a session cannot be created on it. *)
Definition net_h2_down : network := {|
  connect := fun host _ _ =>
    if String.eqb host "h2" then (Some SocketTimeout, 5000) else (None, 1);
  send := fun _ _ _ => None;
  create_session := fun host _ _ =>
    if String.eqb host "h2" then Some (OtherError "no manager") else None;
  destroy_session := fun _ _ _ => None
|}.

(** Every host answers at once. *)
Definition net_all_up : network := {|
  connect := fun _ _ _ => (None, 1);
  send := fun _ _ _ => None;
  create_session := fun _ _ _ => None;
  destroy_session := fun _ _ _ => None
|}.

(** There is no route to any host: [connect] fails with [EHOSTUNREACH]. *)
Definition net_unreachable : network := {|
  connect := fun _ _ _ => (Some (SocketError EHOSTUNREACH), 3);
  send := fun _ _ _ => None;
  create_session := fun _ _ _ => Some (SocketError EHOSTUNREACH);
  destroy_session := fun _ _ _ => None
|}.

(** Every connection is refused within ten milliseconds. *)
Definition net_refusing : network := {|
  connect := fun _ _ _ => (Some (SocketError ECONNREFUSED), 10);
  send := fun _ _ _ => None;
  create_session := fun _ _ _ => Some (SocketError ECONNREFUSED);
  destroy_session := fun _ _ _ => None
|}.

(** A manager that reports at every poll the sessions [ss], whose
    requests take a millisecond, and a log directory that exists. *)
Definition manager_of (ss : list session) : manager := {|
  sessions := fun _ => Ok ss;
  graph_status := fun _ _ => Ok (PyDict [("nm1", PyInt 4)]);
  graph := fun _ _ => Ok (PyList [PyDict [("oid", PyStr "a")]]);
  open_append := fun _ _ => None;
  path_exists := fun _ => true;
  took := fun _ => 1
|}.

Definition session_done : session :=
  {| sessionId := "s1"; status := [("nm1", FINISHED); ("nm2", FINISHED)] |}.

Definition session_busy : session :=
  {| sessionId := "s2"; status := [("nm1", FINISHED); ("nm2", RUNNING)] |}.

(** Three modifier functions: [pure_tail] returns the graph without its
    first drop and leaves its argument alone; [pop_first] removes the
    first drop in place and returns the graph; [tag] appends its
    positional arguments in place and returns [None]. *)
Definition pure_tail : modifier :=
  fun g _ _ =>
    Ok (g, match g with PyList (_ :: drops) => PyList drops | v => v end).

Definition pop_first : modifier :=
  fun g _ _ =>
    let g' := match g with PyList (_ :: drops) => PyList drops | v => v end in
    Ok (g', g').

Definition tag : modifier :=
  fun g args _ =>
    Ok (match g with PyList drops => PyList (drops ++ map PyStr args) | v => v end,
        PyNone).

Definition drop_a : pyval := PyDict [("oid", PyStr "a")].
Definition drop_b : pyval := PyDict [("oid", PyStr "b")].

(** Collaborators that load the graph [[drop_a; drop_b]], know the
    modifiers [known] and map a graph by pairing it with its hosts. *)
Definition tools_with (known : string -> option modifier) : tools := {|
  fname_to_pipname := fun name => name;
  make_pgt := fun _ _ _ _ _ _ _ _ => Ok (PyList [drop_a; drop_b]);
  json_load := fun _ => Ok (PyList [drop_a; drop_b]);
  get_symbol := fun name =>
    match known name with
    | Some func => Ok func
    | None => Raise (UnknownSymbol name)
    end;
  resource_map := fun g hosts _ _ =>
    Ok (PyDict [("drops", g); ("nodes", PyList (map PyStr hosts))]);
  json_write := fun _ _ => None;
  NODE_DEFAULT_REST_PORT := 8000;
  ISLAND_DEFAULT_REST_PORT := 8001;
  MASTER_DEFAULT_REST_PORT := 8002
|}.

Definition example_tools : tools :=
  tools_with (fun name =>
    if String.eqb name "mods.pure_tail" then Some pure_tail
    else if String.eqb name "mods.pop_first" then Some pop_first
    else if String.eqb name "mods.tag" then Some tag
    else None).


(** The options after parsing when, of [--log-dir], [--check-interfaces],
    [--physical-graph] and [--pg-modifiers], these are given; every other
    option has its default. *)
Definition options_with (log_dir : option string) (check_interfaces : bool)
    (physical_graph pg_modifiers : option string) : opts.t := {|
  opts.log_dir := log_dir;
  opts.monitor_host := None;
  opts.monitor_port := 8081;
  opts.verbose_level := 1;
  opts.zerorun := false;
  opts.app := 0;
  opts.max_threads := 0;
  opts.logical_graph := None;
  opts.physical_graph := physical_graph;
  opts.num_islands := 1;
  opts.dump := false;
  opts.loc := "Pawsey";
  opts.part_algo := "metis";
  opts.algo_params := None;
  opts.ssid := "1";
  opts.all_nics := false;
  opts.check_interfaces := check_interfaces;
  opts.use_ifconfig := false;
  opts.check_with_session := false;
  opts.event_listeners := "";
  opts.sleep_after_execution := 0;
  opts.pg_modifiers := pg_modifiers;
  opts.remote_mechanism := "mpi"
|}.

(** A physical graph, and the modifiers if any. *)
Definition example_options (pg_modifiers : option string) : opts.t :=
  options_with (Some "/logs") false (Some "/graphs/pg.json") pg_modifiers.

(** [--check-interfaces] alone. *)
Definition options_check_interfaces : opts.t := options_with None true None None.

(** What [ifconfig] prints on a node with one interface. *)
Definition ifconfig_output : string :=
  ("eth0      Link encap:Ethernet  HWaddr 00:1e:67:aa:bb:cc" ++ linesep
   ++ "          inet addr:10.128.0.98  Bcast:10.128.0.255  Mask:255.255.255.0"
   ++ linesep)%string.

(** The island owner of a cluster of one island and one node manager. *)
Definition island_owner (my_ip : string) : remote := {|
  rank := 0;
  size := 2;
  my_ip := my_ip;
  is_nm := false;
  is_proxy := false;
  is_highest_level_manager := true;
  hl_mgr_ip := my_ip;
  nm_ips := ["10.128.0.99"];
  dim_ips := [my_ip];
  recv_dim_nodes := Ok []
|}.

Definition example_site : site := {|
  ifconfig := Ok ifconfig_output;
  get_local_ip_addr := Ok [["10.128.0.98"; "255.255.255.0"]];
  file_exists := fun _ => true;
  makedirs := fun _ => None;
  make_remote := fun _ my_ip => Ok (island_owner my_ip);
  proxy_loop := None
|}.

Definition example_world : world := {|
  the_network := net_all_up;
  the_tools := example_tools;
  the_manager := manager_of [session_done];
  the_site := example_site
|}.

(** A machine on which only [/run/user/1000] exists. *)
Definition fresh_disk : disk := {|
  environ := {[ "XDG_RUNTIME_DIR" := "/run/user/1000" ]};
  home := "/home/dfms";
  present := {[ "/run/user/1000" ]};
  makedirs_fails := fun _ => None;
  made := []
|}.

(** [--log-dir /logs --logical-graph /graphs/lg.json --pg-modifiers ""]
    with the given [--app]. *)
Definition options_logical (app : Z) : opts.t := {|
  opts.log_dir := Some "/logs";
  opts.monitor_host := None;
  opts.monitor_port := 8081;
  opts.verbose_level := 1;
  opts.zerorun := false;
  opts.app := app;
  opts.max_threads := 0;
  opts.logical_graph := Some "/graphs/lg.json";
  opts.physical_graph := None;
  opts.num_islands := 1;
  opts.dump := false;
  opts.loc := "Pawsey";
  opts.part_algo := "metis";
  opts.algo_params := None;
  opts.ssid := "1";
  opts.all_nics := false;
  opts.check_interfaces := false;
  opts.use_ifconfig := false;
  opts.check_with_session := false;
  opts.event_listeners := "";
  opts.sleep_after_execution := 0;
  opts.pg_modifiers := Some "";
  opts.remote_mechanism := "mpi"
|}.

(** The first connection is refused within ten milliseconds; from then on
    there is no route to the host. *)
Definition net_refused_once : network := {|
  connect := fun _ _ n =>
    match n with
    | O => (Some (SocketError ECONNREFUSED), 10)
    | S _ => (Some (SocketError EHOSTUNREACH), 3)
    end;
  send := fun _ _ _ => None;
  create_session := fun _ _ _ => Some (SocketError EHOSTUNREACH);
  destroy_session := fun _ _ _ => None
|}.

(** A node on which the [ifconfig] command is not installed. *)
Definition site_without_ifconfig : site := {|
  ifconfig := Raise (OtherError "OSError: [Errno 2] No such file or directory");
  get_local_ip_addr := Ok [["10.128.0.98"; "255.255.255.0"]];
  file_exists := fun _ => true;
  makedirs := fun _ => None;
  make_remote := fun _ my_ip => Ok (island_owner my_ip);
  proxy_loop := None
|}.

Definition world_without_ifconfig : world := {|
  the_network := net_all_up;
  the_tools := example_tools;
  the_manager := manager_of [session_done];
  the_site := site_without_ifconfig
|}.

(** A node on which no interface has an address. *)
Definition site_without_addresses : site := {|
  ifconfig := Ok ifconfig_output;
  get_local_ip_addr := Ok [];
  file_exists := fun _ => true;
  makedirs := fun _ => None;
  make_remote := fun _ my_ip => Ok (island_owner my_ip);
  proxy_loop := None
|}.

Definition world_without_addresses : world := {|
  the_network := net_all_up;
  the_tools := example_tools;
  the_manager := manager_of [session_done];
  the_site := site_without_addresses
|}.

(** * Properties *)

Local Open Scope list_scope.

(** ** The Python string functions on examples *)

Example split_colon : split ":"%char "a,1:b" = ["a,1"; "b"].
Proof. reflexivity. Qed.

Example split_empty : split ":"%char "" = [""].
Proof. reflexivity. Qed.

Example split_ws_ifconfig :
  split_ws "  inet addr:10.1.2.3  Bcast" = ["inet"; "addr:10.1.2.3"; "Bcast"].
Proof. reflexivity. Qed.

Example dirname_examples :
  dirname "/tmp/logs/0/monitor" = "/tmp/logs/0" /\ dirname "monitor" = ""
  /\ dirname "/monitor" = "/" /\ dirname "a//b" = "a".
Proof. repeat split; reflexivity. Qed.

Example format_3f_examples :
  format_3f 1462345678042 = "1462345678.042" /\ format_3f 5 = "0.005"
  /\ format_3f 12340 = "12.340".
Proof. repeat split; vm_compute; reflexivity. Qed.

(** ** Host Health Prober *)

Lemma bind_Ok {A B : Type} (r : result A) (k : A -> result B) (b : B) :
  bind r k = Ok b -> exists a, r = Ok a /\ k a = Ok b.
Proof. destruct r; simpl; intros H; try discriminate. eauto. Qed.

(** The pool gives one result per input, in the order of the input. *)
Lemma pool_map_Ok {A B : Type} (f : A -> result B) (xs : list A) (ys : list B) :
  pool_map f xs = Ok ys -> Forall2 (fun x y => f x = Ok y) xs ys.
Proof.
  revert ys. induction xs as [|x xs IH]; simpl; intros ys H.
  - injection H as <-. constructor.
  - apply bind_Ok in H as (y & Hy & H).
    apply bind_Ok in H as (ys' & Hys & H).
    injection H as <-. constructor; auto.
Qed.

(** Whatever [check_and_add] returns is [None] or the host itself. *)
Lemma check_and_add_loop_Ok fuel net port timeout cws ip ntries w r :
  check_and_add_loop fuel net port timeout cws ip ntries w = Ok r ->
  r = None \/ r = Some ip.
Proof.
  revert ntries w. induction fuel as [|fuel IH]; simpl; intros ntries w H.
  - discriminate.
  - destruct (ntries =? 0).
    + injection H as <-. now left.
    + destruct (check_host fuel net ip port timeout cws w) as [[[]| |] w'];
        try discriminate.
      * injection H as <-. now right.
      * eapply IH, H.
Qed.

(** [check_and_add] keeps asking as long as the host says no: the number
    of tries left never changes. *)
Lemma check_and_add_loop_spins net port timeout cws ip :
  (forall fuel w, fst (check_host fuel net ip port timeout cws w) = Ok false \/
                  fst (check_host fuel net ip port timeout cws w) = Running) ->
  forall fuel ntries w, ntries <> 0 ->
    check_and_add_loop fuel net port timeout cws ip ntries w = Running.
Proof.
  intros Hdown. induction fuel as [|fuel IH]; simpl; intros ntries w Hn.
  - reflexivity.
  - destruct (Z.eqb_spec ntries 0) as [->|_]; [lia|].
    specialize (Hdown fuel w).
    destruct (check_host fuel net ip port timeout cws w) as [[[]| |] w'];
      simpl in Hdown; destruct Hdown as [H|H]; try discriminate.
    + apply IH. lia.
    + reflexivity.
Qed.

Lemma check_and_add_loop_no_raise net port timeout cws ip :
  (forall fuel w e, fst (check_host fuel net ip port timeout cws w) <> Raise e) ->
  forall fuel ntries w e,
    check_and_add_loop fuel net port timeout cws ip ntries w <> Raise e.
Proof.
  intros Hnr. induction fuel as [|fuel IH]; simpl; intros ntries w e.
  - discriminate.
  - destruct (ntries =? 0); [discriminate|].
    specialize (Hnr fuel w).
    destruct (check_host fuel net ip port timeout cws w) as [[[]|e'|] w'];
      simpl in Hnr; try discriminate.
    + apply IH.
    + exfalso. now apply (Hnr e').
Qed.

Lemma h2_is_down fuel port timeout cws w :
  fst (check_host fuel net_h2_down "h2" port timeout cws w) = Ok false \/
  fst (check_host fuel net_h2_down "h2" port timeout cws w) = Running.
Proof.
  unfold check_host. destruct cws; simpl.
  - now left.
  - unfold portIsOpen, writeToRemotePort. destruct fuel as [|fuel]; simpl.
    + now right.
    + destruct timeout as [t|]; simpl.
      * destruct (negb (t =? 0) && (t - (now w - now w) <=? 0)); now left.
      * now left.
Qed.

Lemma others_do_not_raise host fuel port timeout cws w e :
  String.eqb host "h2" = false ->
  fst (check_host fuel net_h2_down host port timeout cws w) <> Raise e.
Proof.
  intros Hh. unfold check_host. destruct cws; simpl.
  - rewrite Hh. discriminate.
  - unfold portIsOpen, writeToRemotePort. destruct fuel as [|fuel]; simpl.
    + discriminate.
    + unfold attempt. simpl. rewrite Hh.
      destruct timeout as [t|]; simpl.
      * destruct (negb (t =? 0) && (t - (now w - now w) <=? 0)); discriminate.
      * discriminate.
Qed.

(** C1 (the code at the scenario of the claim): with [h2] failing every
    attempt and [retry = 2], [check_hosts] on [h1, h2, h3] has not
    returned after any number of steps: the thread probing [h2] never
    gives up, so the result [h1, h3] of the claim is never produced. *)
Theorem check_hosts_h2_down_never_returns fuel port timeout cws :
  check_hosts fuel net_h2_down ["h1"; "h2"; "h3"] port timeout cws 2 = Running.
Proof.
  unfold check_hosts. simpl.
  assert (H2 : check_and_add fuel net_h2_down port timeout cws 2 "h2" = Running).
  { apply check_and_add_loop_spins; [|lia]. intros f w. apply h2_is_down. }
  rewrite H2.
  destruct (check_and_add fuel net_h2_down port timeout cws 2 "h1") as [r|e|] eqn:H1;
    simpl; try reflexivity.
  exfalso. revert H1. apply check_and_add_loop_no_raise.
  intros f w e'. now apply others_do_not_raise.
Qed.

(** C10: [check_hosts] on the empty list raises: the pool of
    [min(50, 0) = 0] threads is refused with a [ValueError], and no list
    is returned. *)
Theorem check_hosts_empty_raises fuel net port timeout cws retry :
  check_hosts fuel net [] port timeout cws retry = Raise ValueError.
Proof. reflexivity. Qed.

(** *** The prober on examples *)

Example check_hosts_all_up :
  check_hosts 2 net_all_up ["h1"; "h2"; "h3"] 8000 (Some 5000) false 2
  = Ok ["h1"; "h2"; "h3"].
Proof. reflexivity. Qed.

(** With [retry = 0] the loop is never entered and no host is kept. *)
Example check_hosts_no_try :
  check_hosts 1 net_h2_down ["h1"; "h2"; "h3"] 8000 (Some 5000) false 0 = Ok [].
Proof. reflexivity. Qed.

(** A refused connection is tried again every tenth of a second until the
    timeout has gone by: with 300 ms, three attempts. *)
Example portIsOpen_refused :
  portIsOpen 5 net_refusing "h1" 8000 (Some 300) worker0
  = (Ok false, {| now := 330; calls := 3 |}).
Proof. reflexivity. Qed.

(** Without a timeout a refused connection is tried again for ever. *)
Example portIsOpen_refused_for_ever fuel w :
  fst (portIsOpen fuel net_refusing "h1" 8000 None w) = Running.
Proof.
  unfold portIsOpen, writeToRemotePort. generalize (now w) at 1. intros start.
  revert w. induction fuel as [|fuel IH]; intros w; [reflexivity|]. apply IH.
Qed.

(** *** More fuel does not change an answer *)

Lemma writeToRemotePort_loop_mono net host port data timeout start :
  forall fuel fuel' w, (fuel <= fuel')%nat ->
    fst (writeToRemotePort_loop fuel net host port data timeout start w) <> Running ->
    writeToRemotePort_loop fuel' net host port data timeout start w
    = writeToRemotePort_loop fuel net host port data timeout start w.
Proof.
  induction fuel as [|fuel IH]; intros fuel' w Hle Hr.
  - simpl in Hr. congruence.
  - destruct fuel' as [|fuel']; [lia|]. simpl in *.
    destruct (match timeout with
              | Some t => negb (t =? 0) && (t - (now w - start) <=? 0)
              | None => false
              end); [reflexivity|].
    destruct (attempt net host port data w) as [[e|] w1]; [|reflexivity].
    destruct e; try reflexivity.
    destruct (errno =? ECONNREFUSED); [|reflexivity].
    destruct (match timeout with
              | Some t => now w1 - start >? t
              | None => false
              end); [reflexivity|].
    apply IH; [lia|assumption].
Qed.

Lemma check_host_mono net host port timeout cws fuel fuel' w :
  (fuel <= fuel')%nat ->
  fst (check_host fuel net host port timeout cws w) <> Running ->
  check_host fuel' net host port timeout cws w
  = check_host fuel net host port timeout cws w.
Proof.
  unfold check_host. destruct cws; simpl; [reflexivity|].
  apply writeToRemotePort_loop_mono.
Qed.

Lemma check_and_add_loop_mono net port timeout cws ip :
  forall fuel fuel' ntries w, (fuel <= fuel')%nat ->
    check_and_add_loop fuel net port timeout cws ip ntries w <> Running ->
    check_and_add_loop fuel' net port timeout cws ip ntries w
    = check_and_add_loop fuel net port timeout cws ip ntries w.
Proof.
  induction fuel as [|fuel IH]; intros fuel' ntries w Hle Hr.
  - simpl in Hr. congruence.
  - destruct fuel' as [|fuel']; [lia|]. simpl in *.
    destruct (ntries =? 0); [reflexivity|].
    assert (Hh : fst (check_host fuel net ip port timeout cws w) <> Running).
    { intros E. destruct (check_host fuel net ip port timeout cws w) as [r w'].
      simpl in E. subst r. congruence. }
    rewrite (check_host_mono _ _ _ _ _ fuel fuel') by (lia || assumption).
    destruct (check_host fuel net ip port timeout cws w) as [[[]| |] w'];
      try reflexivity.
    apply IH; [lia|assumption].
Qed.

Lemma check_and_add_mono net port timeout cws retry ip fuel fuel' :
  (fuel <= fuel')%nat ->
  returned (check_and_add fuel net port timeout cws retry ip) ->
  check_and_add fuel' net port timeout cws retry ip
  = check_and_add fuel net port timeout cws retry ip.
Proof.
  intros Hle Hr. unfold check_and_add in *.
  apply check_and_add_loop_mono; [assumption|].
  intros E. rewrite E in Hr. exact Hr.
Qed.

(** A host that answers at its [k]-th check is returned, however large
    [k] is compared with [retry]: a failed attempt costs no try. *)
Lemma check_and_add_includes net port timeout cws ip k w :
  succeeds_at net port timeout cws ip k w ->
  forall ntries, ntries <> 0 ->
    exists fuel, forall fuel', (fuel <= fuel')%nat ->
      check_and_add_loop fuel' net port timeout cws ip ntries w = Ok (Some ip).
Proof.
  induction 1 as [fuel w w' Hc | fuel k w w' Hc _ IH]; intros ntries Hn.
  - exists (S fuel). intros [|fuel'] Hle; [lia|]. simpl.
    destruct (Z.eqb_spec ntries 0) as [|_]; [contradiction|].
    rewrite (check_host_mono _ _ _ _ _ fuel fuel'), Hc; [reflexivity|lia|].
    rewrite Hc. discriminate.
  - destruct (IH (ntries - 0) ltac:(lia)) as [F HF].
    exists (S (Nat.max fuel F)). intros [|fuel'] Hle; [lia|]. simpl.
    destruct (Z.eqb_spec ntries 0) as [|_]; [contradiction|].
    rewrite (check_host_mono _ _ _ _ _ fuel fuel'), Hc; [apply HF; lia|lia|].
    rewrite Hc. discriminate.
Qed.

(** When every call returns, so does the pool. *)
Lemma pool_map_returns net port timeout cws retry (ips : list string) :
  (forall ip, In ip ips ->
     exists f, returned (check_and_add f net port timeout cws retry ip)) ->
  exists fuel, forall fuel', (fuel <= fuel')%nat ->
    returned (pool_map (check_and_add fuel' net port timeout cws retry) ips).
Proof.
  induction ips as [|ip ips IH]; intros H.
  - exists O. intros; exact I.
  - destruct (H ip (or_introl eq_refl)) as [f Hf].
    destruct IH as [F HF]; [intros; apply H; now right|].
    exists (Nat.max f F). intros fuel' Hle. simpl.
    rewrite (check_and_add_mono _ _ _ _ _ _ f fuel') by (lia || assumption).
    destruct (check_and_add f net port timeout cws retry ip); try contradiction.
    simpl. specialize (HF fuel' ltac:(lia)).
    destruct (pool_map (check_and_add fuel' net port timeout cws retry) ips);
      try contradiction.
    exact I.
Qed.

Lemma filter_sublist {A : Type} (p : A -> bool) (l : list A) :
  sublist (List.filter p l) l.
Proof.
  induction l as [|x l IH]; simpl.
  - constructor.
  - destruct (p x); now constructor.
Qed.

Lemma keep_truthy_filter fuel net port timeout cws retry ips up :
  Forall2 (fun x y => check_and_add fuel net port timeout cws retry x = Ok y) ips up ->
  keep_truthy up
  = List.filter (fun ip => passed fuel net port timeout cws retry ip
                           && negb (String.eqb ip "")) ips.
Proof.
  induction 1 as [|ip r ips up Hr _ IH]; simpl.
  - reflexivity.
  - unfold passed at 1. rewrite Hr.
    destruct (check_and_add_loop_Ok _ _ _ _ _ _ _ _ _ Hr) as [->| ->]; simpl.
    + exact IH.
    + destruct (String.eqb ip ""); simpl; [exact IH | now rewrite IH].
Qed.

(** C7 (as amended): whenever [check_hosts] returns, it returns the hosts
    of [ips] that passed and whose name is not the empty string, in the
    order of [ips], which makes the result a subsequence of [ips]; and it
    does return when [ips] is not empty and the probe of every host
    returns. *)
Theorem check_hosts_subsequence fuel net ips port timeout cws retry :
  (forall up, check_hosts fuel net ips port timeout cws retry = Ok up ->
     up = List.filter (fun ip => passed fuel net port timeout cws retry ip
                                 && negb (String.eqb ip "")) ips
     /\ sublist up ips)
  /\ (ips <> [] ->
      (forall ip, In ip ips ->
         exists f, returned (check_and_add f net port timeout cws retry ip)) ->
      exists fuel' up, check_hosts fuel' net ips port timeout cws retry = Ok up).
Proof.
  split.
  - intros up H. unfold check_hosts in H.
    apply bind_Ok in H as (_ & _ & H).
    apply bind_Ok in H as (rs & Hrs & H). injection H as <-.
    apply pool_map_Ok in Hrs.
    rewrite (keep_truthy_filter _ _ _ _ _ _ _ _ Hrs).
    split; [reflexivity | apply filter_sublist].
  - intros Hne Hall. destruct (pool_map_returns _ _ _ _ _ _ Hall) as [F HF].
    specialize (HF F (le_n _)). exists F. unfold check_hosts.
    assert (Hpool : ThreadPool (Z.min 50 (Z.of_nat (List.length ips))) = Ok tt).
    { unfold ThreadPool. destruct ips; [congruence|]. simpl List.length.
      destruct (Z.ltb_spec (Z.min 50 (Z.of_nat (S (List.length ips)))) 1); [lia|reflexivity]. }
    rewrite Hpool. simpl.
    destruct (pool_map (check_and_add F net port timeout cws retry) ips) as [rs| |];
      try contradiction.
    simpl. eauto.
Qed.

Lemma check_hosts_subsequence_witness :
  check_hosts 2 net_all_up ["h1"; ""; "h3"] 8000 (Some 5000) false 1 = Ok ["h1"; "h3"]
  /\ sublist ["h1"; "h3"] ["h1"; ""; "h3"]
  /\ exists fuel' up,
       check_hosts fuel' net_all_up ["h1"; ""; "h3"] 8000 (Some 5000) false 1 = Ok up.
Proof.
  pose proof (check_hosts_subsequence 2 net_all_up ["h1"; ""; "h3"] 8000
                (Some 5000) false 1) as [Hsub Hret].
  split; [reflexivity|]. split.
  - apply (Hsub ["h1"; "h3"]). reflexivity.
  - apply Hret; [discriminate|].
    intros ip _. exists 2%nat. unfold check_and_add. simpl. exact I.
Defined.

(** C7 (as stated, refuted): the host named by the empty string passes its
    check, and yet the list returned does not contain it. *)
Lemma check_hosts_drops_empty_name :
  passed 2 net_all_up 8000 (Some 5000) false 1 "" = true
  /\ In "" [""]
  /\ check_hosts 2 net_all_up [""] 8000 (Some 5000) false 1 = Ok [].
Proof. repeat split; simpl; auto. Qed.

(** *** What [check_host] raises *)

Lemma writeToRemotePort_loop_Raise net host port timeout start e :
  forall fuel w w',
    writeToRemotePort_loop fuel net host port None timeout start w = (Raise e, w') ->
    e <> SocketTimeout /\ e <> SocketError ECONNREFUSED
    /\ exists n, fst (connect net host port n) = Some e.
Proof.
  induction fuel as [|fuel IH]; simpl; intros w w' H.
  - discriminate.
  - destruct (match timeout with
              | Some t => negb (t =? 0) && (t - (now w - start) <=? 0)
              | None => false
              end); [discriminate|].
    unfold attempt in H.
    destruct (connect net host port (calls w)) as [r d] eqn:Hc.
    assert (Hn : forall x, r = Some x -> exists n, fst (connect net host port n) = Some x).
    { intros x ->. exists (calls w). now rewrite Hc. }
    destruct r as [x|]; [|discriminate].
    destruct x; try discriminate;
      try (injection H as <- _; repeat split; try discriminate; now apply Hn).
    destruct (Z.eqb_spec errno ECONNREFUSED) as [->|Hne].
    + destruct (match timeout with
                | Some t => now _ - start >? t
                | None => false
                end); [discriminate|].
      eapply IH, H.
    + injection H as <- _. repeat split; try discriminate; try congruence.
      now apply Hn.
Qed.

(** As long as the connection is refused in time, the loop goes round:
    after [k] such passes it stands at the head of pass [k], with the clock
    of [clock_at]. *)
Lemma writeToRemotePort_loop_retries net host port timeout start w :
  forall k fuel,
    (forall i, (i < k)%nat ->
       expired_at timeout (clock_at net host port w i - start) = false
       /\ fst (connect net host port (calls w + i)%nat)
          = Some (SocketError ECONNREFUSED)
       /\ late_at timeout
            (clock_at net host port w i
             + snd (connect net host port (calls w + i)%nat) - start) = false) ->
    writeToRemotePort_loop (k + fuel) net host port None timeout start w
    = writeToRemotePort_loop fuel net host port None timeout start
        {| now := clock_at net host port w k; calls := (calls w + k)%nat |}.
Proof.
  induction k as [|k IH]; intros fuel H.
  - destruct w as [n c]. simpl. now rewrite Nat.add_0_r.
  - replace (S k + fuel)%nat with (k + S fuel)%nat by lia.
    rewrite IH by (intros i Hi; apply H; lia).
    destruct (H k ltac:(lia)) as (He & Hc & Hl).
    unfold expired_at in He. unfold late_at in Hl.
    cbn [writeToRemotePort_loop now calls]. rewrite He.
    unfold attempt. cbn [now calls].
    destruct (connect net host port (calls w + k)%nat) as [r d] eqn:E.
    cbn [fst snd] in Hc, Hl. subst r.
    rewrite Z.eqb_refl. cbn [now calls]. rewrite Hl.
    unfold sleep. cbn [now calls clock_at]. rewrite E. cbn [snd].
    now rewrite Nat.add_succ_r.
Qed.

(** C5 (as amended): with session probing [check_host] always answers with
    a boolean, [True] exactly when both calls went through.  Without it,
    an exception it raises is one that a connection attempt raised, and is
    neither a time-out nor a refused connection.  Every pass of the retry
    loop, the first as well as one reached after [k] refused attempts,
    decides in the same way: the answer is [False] if the timeout has run
    out at its head; otherwise an established connection gives [True], an
    attempt that times out gives [False], a refused one that comes too
    late gives [False] (in time, it is retried 100 ms later), and any
    other error of the attempt is raised to the caller. *)
Theorem check_host_raises fuel net host port timeout w :
  (exists b,
     fst (check_host fuel net host port timeout true w) = Ok b
     /\ (b = true <-> create_session net host port (calls w) = None
                      /\ destroy_session net host port (calls w) = None))
  /\ (forall e, fst (check_host fuel net host port timeout false w) = Raise e ->
        e <> SocketTimeout /\ e <> SocketError ECONNREFUSED
        /\ exists n, fst (connect net host port n) = Some e)
  /\ (forall e, (1 <= fuel)%nat ->
        match timeout with Some t => 0 <= t | None => True end ->
        fst (connect net host port (calls w)) = Some e ->
        (e = SocketTimeout ->
           fst (check_host fuel net host port timeout false w) = Ok false)
        /\ (e <> SocketTimeout -> e <> SocketError ECONNREFUSED ->
           fst (check_host fuel net host port timeout false w) = Raise e))
  /\ (forall k, (k < fuel)%nat ->
        (forall i, (i < k)%nat ->
           expired_at timeout (clock_at net host port w i - now w) = false
           /\ fst (connect net host port (calls w + i)%nat)
              = Some (SocketError ECONNREFUSED)
           /\ late_at timeout
                (clock_at net host port w i
                 + snd (connect net host port (calls w + i)%nat) - now w)
              = false) ->
        let r := fst (check_host fuel net host port timeout false w) in
        let elapsed := clock_at net host port w k - now w in
        let '(outcome, took) := connect net host port (calls w + k)%nat in
        if expired_at timeout elapsed then r = Ok false
        else match outcome with
             | None => r = Ok true
             | Some SocketTimeout => r = Ok false
             | Some (SocketError errno) =>
                 if errno =? ECONNREFUSED
                 then late_at timeout (elapsed + took) = true -> r = Ok false
                 else r = Raise (SocketError errno)
             | Some e => r = Raise e
             end).
Proof.
  split; [|split; [|split]].
  - unfold check_host. simpl.
    destruct (create_session net host port (calls w)) as [e|].
    + exists false. split; [reflexivity|]. split; [discriminate|]. intros [H _]. discriminate.
    + destruct (destroy_session net host port (calls w)) as [e|].
      * exists false. split; [reflexivity|]. split; [discriminate|]. intros [_ H]. discriminate.
      * exists true. split; [reflexivity|]. split; auto.
  - intros e H. unfold check_host, portIsOpen, writeToRemotePort in H. simpl in H.
    destruct (writeToRemotePort_loop fuel net host port None timeout (now w) w)
      as [r w'] eqn:E.
    simpl in H. subst r. eapply writeToRemotePort_loop_Raise, E.
  - intros e Hf Ht Hc.
    unfold check_host, portIsOpen, writeToRemotePort. simpl.
    destruct fuel as [|fuel]; [lia|]. simpl.
    assert (Hexp : match timeout with
                   | Some t => negb (t =? 0) && (t - (now w - now w) <=? 0)
                   | None => false
                   end = false).
    { destruct timeout as [t|]; [|reflexivity].
      destruct (Z.eqb_spec t 0); simpl; [reflexivity|].
      destruct (Z.leb_spec (t - (now w - now w)) 0); [lia|reflexivity]. }
    rewrite Hexp. unfold attempt.
    destruct (connect net host port (calls w)) as [r d]. simpl in Hc. subst r.
    split.
    + intros ->. reflexivity.
    + intros H1 H2. destruct e; try reflexivity; try congruence.
      destruct (Z.eqb_spec errno ECONNREFUSED) as [->|_]; [congruence|reflexivity].
  - intros k Hk H.
    unfold check_host, portIsOpen, writeToRemotePort. cbn [negb].
    replace fuel with (k + S (fuel - S k))%nat by lia.
    rewrite (writeToRemotePort_loop_retries _ _ _ _ _ _ _ _ H).
    cbn [writeToRemotePort_loop now calls].
    unfold expired_at, late_at, attempt. cbn [now calls].
    destruct (connect net host port (calls w + k)%nat) as [r d].
    destruct (match timeout with
              | Some t => negb (t =? 0) && (t - (clock_at net host port w k - now w) <=? 0)
              | None => false
              end); [reflexivity|].
    destruct r as [e|]; [|reflexivity].
    destruct e; try reflexivity.
    destruct (errno =? ECONNREFUSED); [|reflexivity].
    cbn [now]. intros Hl.
    replace (clock_at net host port w k + d - now w)
      with (clock_at net host port w k - now w + d) by lia.
    destruct timeout as [t|]; [|discriminate].
    rewrite Hl. reflexivity.
Qed.

Lemma check_host_raises_witness :
  fst (check_host 2 net_refused_once "10.128.0.7" 8000 (Some 5000) false worker0)
  = Raise (SocketError EHOSTUNREACH).
Proof.
  pose proof (check_host_raises 2 net_refused_once "10.128.0.7" 8000 (Some 5000)
                worker0) as (_ & _ & _ & H).
  assert (Hk : (1 < 2)%nat) by lia.
  specialize (H 1%nat Hk).
  apply H.
  intros i Hi. assert (i = 0)%nat as -> by lia.
  repeat split.
Defined.

(** C5 (as stated, refuted): a host to which there is no route makes
    [check_host] raise, on a valid port, instead of answering [False]. *)
Lemma check_host_unreachable_raises :
  fst (check_host 1 net_unreachable "10.128.0.7" 8000 (Some 5000) false worker0)
  = Raise (SocketError EHOSTUNREACH)
  /\ 0 < 8000.
Proof. split; [reflexivity | lia]. Qed.

(** ** Execution Monitor *)

Lemma requests_pace stt st : requests (pace stt st) = requests st.
Proof. unfold pace. destruct (_ <? _); reflexivity. Qed.

Lemma finished_scan_requests ss : forall st,
  requests (snd (finished_scan ss st)) = requests st.
Proof.
  induction ss as [|s ss IH]; simpl; intros st; [reflexivity|].
  destruct (all_finished s); [reflexivity|].
  rewrite IH. apply requests_pace.
Qed.

(** The scan returns from the function exactly when some session of the
    listing has all its statuses [FINISHED]. *)
Lemma finished_scan_true ss : forall st,
  fst (finished_scan ss st) = existsb all_finished ss.
Proof.
  induction ss as [|s ss IH]; simpl; intros st; [reflexivity|].
  destruct (all_finished s); [reflexivity|]. apply IH.
Qed.

(** The loop of [monitor_graph] has no way out but an exception. *)
Lemma monitor_graph_loop_never_returns m gname sname : forall fuel st u,
  fst (monitor_graph_loop fuel m gname sname st) <> Ok u.
Proof.
  induction fuel as [|fuel IH]; simpl; intros st u.
  - discriminate.
  - destruct (sessions m (requests st)) as [ss| |]; try discriminate.
    destruct (monitor_sessions m gname sname ss (request m st)) as [[[]| |] st2] eqn:E;
      try discriminate.
    apply IH.
Qed.

Lemma monitor_execution_finished_exits m : forall fuel st,
  fst (monitor_execution_finished fuel m st) = Ok tt ->
  exists k ss, sessions m (requests st + k) = Ok ss /\ existsb all_finished ss = true.
Proof.
  induction fuel as [|fuel IH]; simpl; intros st H.
  - discriminate.
  - destruct (sessions m (requests st)) as [ss| |] eqn:Hs; try discriminate.
    pose proof (finished_scan_true ss (request m st)) as Ht.
    pose proof (finished_scan_requests ss (request m st)) as Hr.
    destruct (finished_scan ss (request m st)) as [[] st2]; simpl in Ht, Hr.
    + exists O, ss. rewrite Nat.add_0_r. auto.
    + apply IH in H as (k & ss' & Hk & Hf).
      exists (S k), ss'. rewrite Hr in Hk. simpl in Hk.
      replace (requests st + S k)%nat with (S (requests st + k)) by lia. auto.
Qed.

Lemma monitor_execution_finished_reaches m :
  (forall n, exists ss, sessions m n = Ok ss) ->
  forall k st ss,
    sessions m (requests st + k) = Ok ss -> existsb all_finished ss = true ->
    exists fuel, fst (monitor_execution_finished fuel m st) = Ok tt.
Proof.
  intros Hall. induction k as [|k IH]; intros st ss Hk Hf.
  - exists 1%nat. simpl. rewrite Nat.add_0_r in Hk. rewrite Hk.
    pose proof (finished_scan_true ss (request m st)) as Ht.
    destruct (finished_scan ss (request m st)) as [[] st2]; simpl in Ht;
      [reflexivity | congruence].
  - destruct (Hall (requests st)) as [ss0 Hs0].
    pose proof (finished_scan_true ss0 (request m st)) as Ht.
    pose proof (finished_scan_requests ss0 (request m st)) as Hr.
    destruct (finished_scan ss0 (request m st)) as [[] st2] eqn:E; simpl in Ht, Hr.
    + exists 1%nat. simpl. rewrite Hs0, E. reflexivity.
    + destruct (IH st2 ss) as [fuel Hfuel]; [|assumption|].
      * rewrite Hr. simpl.
        replace (S (requests st + k)) with (requests st + S k)%nat by lia. exact Hk.
      * exists (S fuel). simpl. rewrite Hs0, E. exact Hfuel.
Qed.

(** C2 (as amended): [monitor_graph] returns only when the directory of
    its dump path is missing, before any poll; once it polls, its loop
    never exits.  [monitor_execution_finished], when each poll lists at
    most one session, returns exactly when some poll lists a session
    whose every status is [FINISHED]: it keeps polling while there is no
    session or the session is not finished. *)
Theorem monitor_termination m :
  (forall fuel dump_path st,
     fst (monitor_graph fuel m dump_path st) = Ok tt
     <-> path_exists m (dirname dump_path) = false)
  /\ ((forall n, exists ss, sessions m n = Ok ss /\ (List.length ss <= 1)%nat) ->
      forall st,
        (exists fuel, fst (monitor_execution_finished fuel m st) = Ok tt)
        <-> (exists k s, sessions m (requests st + k) = Ok [s]
                         /\ all_finished s = true)).
Proof.
  split.
  - intros fuel dump_path st. unfold monitor_graph.
    destruct (path_exists m (dirname dump_path)); simpl.
    + split; [|discriminate]. intros H. exfalso.
      now apply (monitor_graph_loop_never_returns _ _ _ _ _ _ H).
    + split; reflexivity.
  - intros Hone st. split.
    + intros [fuel H]. apply monitor_execution_finished_exits in H as (k & ss & Hk & Hf).
      destruct (Hone (requests st + k)%nat) as (ss' & Hs' & Hlen).
      rewrite Hk in Hs'. injection Hs' as <-.
      destruct ss as [|s [|s' ss]]; simpl in *; try discriminate; try lia.
      exists k, s. split; [assumption|]. now rewrite orb_false_r in Hf.
    + intros (k & s & Hk & Hf).
      eapply monitor_execution_finished_reaches; [|exact Hk|].
      * intros n. destruct (Hone n) as (ss & Hs & _). eauto.
      * simpl. now rewrite Hf.
Qed.

Lemma monitor_termination_witness :
  exists fuel,
    fst (monitor_execution_finished fuel (manager_of [session_done]) monitor0) = Ok tt.
Proof.
  pose proof (monitor_termination (manager_of [session_done])) as [_ H].
  apply H.
  - intros n. exists [session_done]. split; [reflexivity | simpl; lia].
  - exists O, session_done. split; reflexivity.
Defined.

Lemma manager_of_sessions_ok ss gname sname : forall l st,
  exists st', monitor_sessions (manager_of ss) gname sname l st = (Ok tt, st').
Proof.
  induction l as [|s l IH]; simpl; intros st.
  - eauto.
  - unfold monitor_session. simpl.
    destruct (graph_dict st !! sessionId s); simpl; apply IH.
Qed.

Lemma manager_of_graph_runs ss gname sname : forall fuel st,
  fst (monitor_graph_loop fuel (manager_of ss) gname sname st) = Running.
Proof.
  induction fuel as [|fuel IH]; intros st; [reflexivity|].
  cbn [monitor_graph_loop]. cbn [sessions manager_of].
  destruct (manager_of_sessions_ok ss gname sname ss (request (manager_of ss) st))
    as [st' ->].
  apply IH.
Qed.

(** C2 (as stated, refuted): with one finished and one running session
    [monitor_execution_finished] returns at the first poll; and with a
    single session that is finished at every poll, [monitor_graph] is
    still polling after any number of rounds. *)
Lemma monitor_exit_counterexample :
  (fst (monitor_execution_finished 1 (manager_of [session_done; session_busy]) monitor0)
   = Ok tt
   /\ all_finished session_busy = false)
  /\ (all_finished session_done = true
      /\ forall fuel,
           fst (monitor_graph fuel (manager_of [session_done]) "/logs/0/monitor" monitor0)
           = Running).
Proof.
  split; [split; reflexivity|]. split; [reflexivity|].
  intros fuel. unfold monitor_graph.
  change (path_exists (manager_of [session_done]) (dirname "/logs/0/monitor")) with true.
  simpl negb. cbv iota. apply manager_of_graph_runs.
Qed.

(** *** The records of the two logs *)

Lemma lines_snoc rs v : lines (rs ++ [v]) = lines rs ++ [Dump v; Text linesep].
Proof. unfold lines. rewrite flat_map_app. simpl. reflexivity. Qed.

Lemma gfile_pace stt st : gfile (pace stt st) = gfile st.
Proof. unfold pace. destruct (_ <? _); reflexivity. Qed.

Lemma sfile_pace stt st : sfile (pace stt st) = sfile st.
Proof. unfold pace. destruct (_ <? _); reflexivity. Qed.

(** What one pass over a session leaves in the logs: nothing when it
    fails early, else at most one graph record and at most one status
    record, both carrying the id of the session. *)
Lemma monitor_session_appends m gname sname s st :
  let st' := snd (monitor_session m gname sname s st) in
  (gfile st' = gfile st
   \/ exists g, gfile st'
                = gfile st ++ lines [PyDict [("ssid", PyStr (sessionId s)); ("g", g)]])
  /\ (sfile st' = sfile st
      \/ exists gs t, sfile st'
                      = sfile st ++ lines [PyDict [("ssid", PyStr (sessionId s));
                                                   ("gs", gs);
                                                   ("ts", PyStr (format_3f t))]]).
Proof.
  unfold monitor_session.
  destruct (graph_status m (requests st) (sessionId s)) as [gs|e|]; simpl;
    try (split; left; reflexivity).
  destruct (graph_dict st !! sessionId s) as [g0|]; simpl.
  - destruct (open_append m (S (requests st)) sname); simpl.
    + split; left; reflexivity.
    + rewrite gfile_pace, sfile_pace. simpl. split; [left; reflexivity|].
      right. eexists _, _. reflexivity.
  - destruct (graph m (S (requests st)) (sessionId s)) as [g|e|]; simpl;
      try (split; left; reflexivity).
    destruct (open_append m (S (S (requests st))) gname); simpl;
      try (split; left; reflexivity).
    destruct (open_append m (S (S (S (requests st)))) sname); simpl.
    + split; [right; eexists; reflexivity | left; reflexivity].
    + rewrite gfile_pace, sfile_pace. simpl.
      split; right; [eexists | eexists _, _]; reflexivity.
Qed.

Lemma monitor_session_logs_ok m gname sname s st :
  logs_ok st -> logs_ok (snd (monitor_session m gname sname s st)).
Proof.
  intros [(gs & Hg & Hgs) (ss & Hs & Hss)].
  destruct (monitor_session_appends m gname sname s st) as [HG HS].
  split.
  - destruct HG as [->|[g ->]]; [eauto|].
    exists (gs ++ [PyDict [("ssid", PyStr (sessionId s)); ("g", g)]]).
    rewrite lines_snoc, Hg, forallb_app, Hgs. split; reflexivity.
  - destruct HS as [->|(x & t & ->)]; [eauto|].
    exists (ss ++ [PyDict [("ssid", PyStr (sessionId s)); ("gs", x);
                           ("ts", PyStr (format_3f t))]]).
    rewrite lines_snoc, Hs, forallb_app, Hss. split; reflexivity.
Qed.

Lemma monitor_sessions_logs_ok m gname sname : forall ss st,
  logs_ok st -> logs_ok (snd (monitor_sessions m gname sname ss st)).
Proof.
  induction ss as [|s ss IH]; simpl; intros st H; [assumption|].
  pose proof (monitor_session_logs_ok m gname sname s st H) as H1.
  destruct (monitor_session m gname sname s st) as [[[]| |] st1]; simpl in *;
    auto.
Qed.

Lemma monitor_graph_loop_logs_ok m gname sname : forall fuel st,
  logs_ok st -> logs_ok (snd (monitor_graph_loop fuel m gname sname st)).
Proof.
  induction fuel as [|fuel IH]; simpl; intros st H; [assumption|].
  destruct (sessions m (requests st)) as [ss| |]; simpl; try assumption.
  pose proof (monitor_sessions_logs_ok m gname sname ss (request m st) H) as H1.
  destruct (monitor_sessions m gname sname ss (request m st)) as [[[]| |] st1];
    simpl in *; auto.
Qed.

(** C6 (as amended): every record [monitor_graph] appends to a log is a
    JSON object followed by the line separator and carries the session id
    under ['ssid'].  A record of the graph log carries the graph under
    ['g'] and no time stamp; a record of the status log carries the status
    under ['gs'] and, under ['ts'], the time as a string with three
    decimals. *)
Theorem monitor_graph_records m :
  (forall fuel dump_path st,
     logs_ok st -> logs_ok (snd (monitor_graph fuel m dump_path st)))
  /\ (forall gname sname s st,
        let st' := snd (monitor_session m gname sname s st) in
        (gfile st' = gfile st
         \/ exists g, gfile st'
              = gfile st ++ lines [PyDict [("ssid", PyStr (sessionId s)); ("g", g)]])
        /\ (sfile st' = sfile st
            \/ exists gs t, sfile st'
                 = sfile st ++ lines [PyDict [("ssid", PyStr (sessionId s));
                                              ("gs", gs);
                                              ("ts", PyStr (format_3f t))]])).
Proof.
  split.
  - intros fuel dump_path st H. unfold monitor_graph.
    destruct (negb (path_exists m (dirname dump_path))); simpl; [assumption|].
    now apply monitor_graph_loop_logs_ok.
  - intros. apply monitor_session_appends.
Qed.

Lemma monitor_graph_records_witness :
  logs_ok (snd (monitor_graph 3 (manager_of [session_busy]) "/logs/0/monitor" monitor0)).
Proof.
  apply (proj1 (monitor_graph_records (manager_of [session_busy]))).
  split; exists []; split; reflexivity.
Defined.

(** C6 (as stated, refuted): after one poll of one session the graph log
    holds one record without any time stamp, and the record of the status
    log holds its time stamp as the string ["0.002"], not as a float. *)
Lemma monitor_graph_records_counterexample :
  let st := snd (monitor_graph 1 (manager_of [session_busy]) "/logs/0/monitor" monitor0) in
  (gfile st = lines [PyDict [("ssid", PyStr "s2");
                             ("g", PyList [PyDict [("oid", PyStr "a")]])]]
   /\ has_float_timestamp (PyDict [("ssid", PyStr "s2");
                                   ("g", PyList [PyDict [("oid", PyStr "a")]])]) = false)
  /\ (sfile st = lines [PyDict [("ssid", PyStr "s2");
                                ("gs", PyDict [("nm1", PyInt 4)]);
                                ("ts", PyStr "0.002")]]
      /\ has_float_timestamp (PyDict [("ssid", PyStr "s2");
                                      ("gs", PyDict [("nm1", PyInt 4)]);
                                      ("ts", PyStr "0.002")]) = false).
Proof. vm_compute. repeat split. Qed.

(** ** Graph Assembler *)

(** A call of [modify_pg] that returns has called the function its name
    resolves to, on the graph as it was, and recorded the call. *)
Lemma modify_pg_Ok t st m v st' :
  modify_pg t st m = (Ok v, st') ->
  exists func args kwargs,
    get_symbol t (modifier_name m) = Ok func
    /\ func (pgt st) args kwargs = Ok (pgt st', v)
    /\ called st' = called st ++ [(modifier_name m, args, kwargs)]
    /\ written st' = written st.
Proof.
  unfold modify_pg, modifier_name.
  destruct (get_symbol t (hd "" (split ","%char m))) as [func| |]; try discriminate.
  destruct (make_kwargs _ _) as [kwargs| |]; try discriminate.
  destruct (func (pgt st) _ kwargs) as [[mutated value]| |] eqn:E; try discriminate.
  intros H. injection H as <- <-. simpl. eauto 10.
Qed.


Lemma apply_modifiers_app t pre rest : forall st,
  apply_modifiers t (pre ++ rest) st
  = match apply_modifiers t pre st with
    | (Ok _, st1) => apply_modifiers t rest st1
    | r => r
    end.
Proof.
  induction pre as [|m pre IH]; simpl; intros st; [reflexivity|].
  destruct (modify_pg t st m) as [[v| |] st']; auto.
Qed.

Lemma apply_modifiers_names t : forall ms st st',
  apply_modifiers t ms st = (Ok tt, st') ->
  map call_name (called st') = map call_name (called st) ++ map modifier_name ms.
Proof.
  induction ms as [|m ms IH]; simpl; intros st st' H.
  - injection H as <-. now rewrite app_nil_r.
  - destruct (modify_pg t st m) as [[v| |] st1] eqn:E; try discriminate.
    apply modify_pg_Ok in E as (func & args & kwargs & _ & _ & Hc & _).
    rewrite (IH _ _ H), Hc, map_app, <- app_assoc. reflexivity.
Qed.





(** C4 (as amended): an unknown modifier name makes [get_pg] raise when
    the loop reaches it: the modifiers before it in the list have all
    been called, in order, and have left their mark on the graph; none
    after it is called, and no graph is mapped or written. *)
Theorem get_pg_unknown_modifier fuel net t o nms dims st g spec pre bad post st1 e :
  truthy (opts.logical_graph o) || truthy (opts.physical_graph o) = true ->
  load_pgt t o nms dims = Ok g ->
  opts.pg_modifiers o = Some spec ->
  split ":"%char spec = pre ++ bad :: post ->
  apply_modifiers t pre
    {| pgt := g; called := called st; written := written st |} = (Ok tt, st1) ->
  get_symbol t (modifier_name bad) = Raise e ->
  get_pg fuel net t o nms dims st = (Raise e, st1)
  /\ map call_name (called st1) = map call_name (called st) ++ map modifier_name pre
  /\ written st1 = written st.
Proof.
  intros Hgiven Hload Hspec Hsplit Hpre Hbad.
  assert (Hw : forall ms s s', apply_modifiers t ms s = (Ok tt, s') ->
                               written s' = written s).
  { induction ms as [|m ms IH]; simpl; intros s s' H.
    - now injection H as <-.
    - destruct (modify_pg t s m) as [[v| |] s1] eqn:E; try discriminate.
      apply modify_pg_Ok in E as (_ & _ & _ & _ & _ & _ & Hw1).
      rewrite (IH _ _ H). exact Hw1. }
  split; [|split].
  - unfold get_pg. rewrite Hload, Hspec, Hsplit, apply_modifiers_app, Hpre.
    simpl. unfold modify_pg. fold (modifier_name bad). rewrite Hbad.
    destruct (truthy (opts.logical_graph o)), (truthy (opts.physical_graph o));
      simpl in *; congruence.
  - apply (apply_modifiers_names _ _ _ _ Hpre).
  - apply (Hw _ _ _ Hpre).
Qed.

Lemma get_pg_unknown_modifier_witness :
  get_pg 2 net_all_up example_tools
    (example_options (Some "mods.pop_first:mods.nope,1:mods.tag,x")) ["n1"] ["d1"]
    assembly0
  = (Raise (UnknownSymbol "mods.nope"),
     snd (apply_modifiers example_tools ["mods.pop_first"]
            {| pgt := PyList [drop_a; drop_b]; called := []; written := [] |})).
Proof.
  apply (get_pg_unknown_modifier 2 net_all_up example_tools
           (example_options (Some "mods.pop_first:mods.nope,1:mods.tag,x"))
           ["n1"] ["d1"] assembly0 (PyList [drop_a; drop_b])
           "mods.pop_first:mods.nope,1:mods.tag,x"
           ["mods.pop_first"] "mods.nope,1" ["mods.tag,x"]
           _ (UnknownSymbol "mods.nope") eq_refl eq_refl eq_refl eq_refl eq_refl
           eq_refl).
Defined.

(** C4 (as stated, refuted): the list [mods.pop_first:mods.nope] ends
    with an unknown name, and when the error is raised [pop_first] has
    already been called and has removed the first drop of the graph. *)
Lemma get_pg_runs_modifier_before_error :
  let r := get_pg 2 net_all_up example_tools
             (example_options (Some "mods.pop_first:mods.nope")) ["n1"] ["d1"]
             assembly0 in
  fst r = Raise (UnknownSymbol "mods.nope")
  /\ map call_name (called (snd r)) = ["mods.pop_first"]
  /\ pgt (snd r) = PyList [drop_b].
Proof. repeat split; reflexivity. Qed.

(** C9: when [--pg-modifiers] is omitted and a graph was asked for and
    loaded, [get_pg] raises [AttributeError] at the split of the modifier
    list: no modifier is called, no host is probed, nothing is mapped or
    written, and no graph is returned for submission. *)
Theorem get_pg_without_modifiers fuel net t o nms dims st g :
  truthy (opts.logical_graph o) || truthy (opts.physical_graph o) = true ->
  load_pgt t o nms dims = Ok g ->
  opts.pg_modifiers o = None ->
  get_pg fuel net t o nms dims st
  = (Raise AttributeError,
     {| pgt := g; called := called st; written := written st |}).
Proof.
  intros Hgiven Hload Hnone. unfold get_pg. rewrite Hload, Hnone.
  destruct (truthy (opts.logical_graph o)), (truthy (opts.physical_graph o));
    simpl in *; congruence.
Qed.

Lemma get_pg_without_modifiers_witness :
  get_pg 2 net_all_up example_tools (example_options None) ["n1"] ["d1"] assembly0
  = (Raise AttributeError,
     {| pgt := PyList [drop_a; drop_b]; called := []; written := [] |}).
Proof.
  apply (get_pg_without_modifiers 2 net_all_up example_tools (example_options None)
           ["n1"] ["d1"] assembly0 (PyList [drop_a; drop_b])
           eq_refl eq_refl eq_refl).
Defined.

(** ** Execution Coordinator *)

(** Given the output of the command, [get_ip_via_ifconfig] at the default
    location always comes back with a string. *)
Lemma get_ip_via_ifconfig_Pawsey s out :
  ifconfig s = Ok out -> exists b, get_ip_via_ifconfig s "Pawsey" = Ok b.
Proof.
  intros H. unfold get_ip_via_ifconfig. rewrite H.
  cbn [bind String.eqb Ascii.eqb Bool.eqb].
  destruct (nth_error (split newline out) 1) as [line|]; [|eexists; reflexivity].
  destruct (nth_error (split_ws line) 1) as [field|]; [|eexists; reflexivity].
  destruct (nth_error (split ":"%char field) 1); eexists; reflexivity.
Qed.

(** The owner of a single island, with a physical graph and one
    modifier: the graph is assembled and written, the submission thread
    and the island manager are started, and the manager is stopped after
    the session is found finished. *)
Example main_island_owner :
  let r := main 5 example_world (example_options (Some "mods.pop_first")) process0 in
  fst r = Ok tt
  /\ events (snd r)
     = [Makedirs "/logs/0"; StartThread "submit_and_monitor";
        StartProcess "dim" ["-l"; "/logs/0"; "-v"; "-N"; "10.128.0.99";
                            "-H"; "0.0.0.0"; "-m"; "2048"];
        Sleep 0; TerminateOrKill 5]
  /\ written (assembled (snd r))
     = [("/logs/pg.json",
         PyDict [("drops", PyList [drop_b]);
                 ("nodes", PyList [PyStr "10.128.0.98"; PyStr "10.128.0.99"])])].
Proof. vm_compute. repeat split. Qed.

(** Without [--check-interfaces] and without a graph, the options are
    refused with status 2. *)
Example main_no_graph :
  let r := main 5 example_world (options_with (Some "/logs") false None None) process0 in
  exit_status (fst r) = Some 2
  /\ events (snd r)
     = [ParserError "Either a logical graph or physical graph filename must be specified"].
Proof. vm_compute. repeat split. Qed.

(** C8 (as amended): with [--check-interfaces], whatever the other
    options are, the process asks the two discovery methods in turn and
    prints each address as soon as it has it.  When both calls return it
    has printed the two addresses and exits with status 0.  A call that
    raises is not caught: if the first one raises nothing is printed, if
    the [ifconfig] command fails only the first address is printed, and
    the process ends with that exception.  In every case nothing but
    these lines is done: nothing is validated, no directory is made, no
    manager is started, no graph is assembled. *)
Theorem main_check_interfaces fuel w options p :
  opts.check_interfaces options = true ->
  let s := the_site w in
  let r := main fuel w options p in
  let printed lines :=
    {| events := events p ++ map Print lines;
       assembled := assembled p; monitored := monitored p |} in
  match get_ip_via_netifaces s "" with
  | Ok a =>
      match ifconfig s with
      | Ok out =>
          exists b,
            get_ip_via_ifconfig s "Pawsey" = Ok b
            /\ r = (Raise (SystemExit 0),
                    printed [("From netifaces: " ++ a)%string;
                             ("From ifconfig: " ++ b)%string])
            /\ exit_status (fst r) = Some 0
      | Raise e => r = (Raise e, printed [("From netifaces: " ++ a)%string])
      | Running => r = (Running, printed [("From netifaces: " ++ a)%string])
      end
  | Raise e => r = (Raise e, p)
  | Running => r = (Running, p)
  end
  /\ exists lines,
       events (snd r) = events p ++ map Print lines
       /\ (length lines <= 2)%nat
       /\ forallb (fun e => negb (starts_manager e)) (map Print lines) = true
       /\ assembled (snd r) = assembled p.
Proof.
  intros Hflag s r printed.
  assert (Hmain : r = match get_ip_via_netifaces s "" with
                      | Ok a =>
                          match get_ip_via_ifconfig s "Pawsey" with
                          | Ok b => (Raise (SystemExit 0),
                                     printed [("From netifaces: " ++ a)%string;
                                              ("From ifconfig: " ++ b)%string])
                          | Raise e => (Raise e, printed [("From netifaces: " ++ a)%string])
                          | Running => (Running, printed [("From netifaces: " ++ a)%string])
                          end
                      | Raise e => (Raise e, p)
                      | Running => (Running, p)
                      end).
  { subst r printed s. unfold main. rewrite Hflag.
    unfold and_then at 1. unfold and_then at 1. unfold lift at 1.
    destruct (get_ip_via_netifaces (the_site w) "") as [a|e|]; try reflexivity.
    unfold and_then at 1. unfold emit at 1.
    unfold and_then at 1. unfold lift at 1.
    destruct (get_ip_via_ifconfig (the_site w) "Pawsey") as [b|e|]; try reflexivity.
    unfold and_then at 1. unfold emit at 1. cbn [events assembled monitored map].
    rewrite <- app_assoc. reflexivity. }
  assert (Hif : match ifconfig s with
                | Ok out => exists b, get_ip_via_ifconfig s "Pawsey" = Ok b
                | Raise e => get_ip_via_ifconfig s "Pawsey" = Raise e
                | Running => get_ip_via_ifconfig s "Pawsey" = Running
                end).
  { destruct (ifconfig s) as [out|e|] eqn:E.
    - eapply get_ip_via_ifconfig_Pawsey, E.
    - unfold get_ip_via_ifconfig. rewrite E. reflexivity.
    - unfold get_ip_via_ifconfig. rewrite E. reflexivity. }
  rewrite Hmain. clear Hmain.
  destruct (get_ip_via_netifaces s "") as [a|e|].
  - destruct (ifconfig s) as [out|e|].
    + destruct Hif as [b Hb]. rewrite Hb. split.
      * exists b. repeat split.
      * eexists [_; _]. cbn [snd events assembled printed]. repeat split. simpl. lia.
    + rewrite Hif. split; [reflexivity|].
      eexists [_]. cbn [snd events assembled printed]. repeat split. simpl. lia.
    + rewrite Hif. split; [reflexivity|].
      eexists [_]. cbn [snd events assembled printed]. repeat split. simpl. lia.
  - split; [reflexivity|]. exists []. simpl. rewrite app_nil_r. repeat split. lia.
  - split; [reflexivity|]. exists []. simpl. rewrite app_nil_r. repeat split. lia.
Qed.

Lemma main_check_interfaces_witness :
  fst (main 5 example_world options_check_interfaces process0) = Raise (SystemExit 0)
  /\ events (snd (main 5 example_world options_check_interfaces process0))
     = [Print "From netifaces: 10.128.0.98"; Print "From ifconfig: 10.128.0.98"].
Proof.
  assert (Hn : get_ip_via_netifaces (the_site example_world) "" = Ok "10.128.0.98")
    by reflexivity.
  assert (Hi : ifconfig (the_site example_world) = Ok ifconfig_output) by reflexivity.
  pose proof (main_check_interfaces 5 example_world options_check_interfaces
                process0 eq_refl) as [H _].
  cbv zeta in H. rewrite Hn, Hi in H.
  destruct H as (b & Hb & Hr & _).
  vm_compute in Hb. injection Hb as <-.
  rewrite Hr. split; reflexivity.
Defined.

(** C8 (as stated, refuted): on a node where the [ifconfig] command cannot
    be run, the process invoked with [--check-interfaces] prints one
    address only and ends with the uncaught exception, status 1. *)
Lemma main_check_interfaces_discovery_fails :
  let r := main 5 world_without_ifconfig options_check_interfaces process0 in
  opts.check_interfaces options_check_interfaces = true
  /\ fst r = Raise (OtherError "OSError: [Errno 2] No such file or directory")
  /\ exit_status (fst r) = Some 1
  /\ events (snd r) = [Print "From netifaces: 10.128.0.98"].
Proof. vm_compute. repeat split. Qed.

(** On a node where no interface has an address, the first discovery call
    raises [IndexError] and nothing is printed. *)
Example main_check_interfaces_no_address :
  let r := main 5 world_without_addresses options_check_interfaces process0 in
  fst r = Raise IndexError
  /\ exit_status (fst r) = Some 1
  /\ events (snd r) = [].
Proof. vm_compute. repeat split. Qed.

(** * Further properties of the code *)

(** ** [utils.writeToRemotePort] and [utils.portIsOpen] *)

Lemma attempt_calls net host port data w :
  calls (snd (attempt net host port data w)) = S (calls w)
  /\ now (snd (attempt net host port data w))
     = now w + snd (connect net host port (calls w)).
Proof.
  unfold attempt. destruct (connect net host port (calls w)) as [[e|] d]; simpl.
  - auto.
  - destruct data; auto.
Qed.

(** The loop under a positive timeout: each refused attempt is followed
    by a sleep of a tenth of a second, so the time left shrinks. *)
Lemma writeToRemotePort_loop_bounded net host port data t start :
  0 < t ->
  (forall n, 0 <= snd (connect net host port n)) ->
  forall fuel w,
    (passes_left (t - (now w - start)) <= fuel)%nat ->
    fst (writeToRemotePort_loop fuel net host port data (Some t) start w) <> Running.
Proof.
  intros Ht Hd. unfold passes_left.
  induction fuel as [|fuel IH]; intros w Hfuel.
  - destruct (_ <=? _); lia.
  - simpl. destruct (Z.eqb_spec t 0) as [|_]; [lia|]. simpl.
    revert Hfuel.
    destruct (Z.leb_spec (t - (now w - start)) 0) as [Hexp|Hleft]; [discriminate|].
    intros Hfuel.
    destruct (attempt_calls net host port data w) as [_ Hnow].
    destruct (attempt net host port data w) as [[e|] w1]; simpl in Hnow;
      [|discriminate].
    destruct e; try discriminate.
    destruct (errno =? ECONNREFUSED); [|discriminate].
    destruct (Z.gtb_spec (now w1 - start) t) as [|Hnot]; [discriminate|].
    apply IH. clear IH. unfold sleep. simpl. specialize (Hd (calls w)).
    destruct (Z.leb_spec (t - (now w1 + 100 - start)) 0); [lia|].
    Z.to_euclidean_division_equations. lia.
Qed.

(** X1: under a timeout of [t >= 0] milliseconds, and a network whose
    connection attempts take no negative time, [writeToRemotePort] has
    returned or raised after at most [t / 100 + 2] passes through its
    loop: it cannot hang. *)
Theorem writeToRemotePort_cannot_hang net host port data t w fuel :
  0 <= t ->
  (forall n, 0 <= snd (connect net host port n)) ->
  (Z.to_nat (t / 100) + 2 <= fuel)%nat ->
  settled (fst (writeToRemotePort fuel net host port data (Some t) w)).
Proof.
  intros Ht Hd Hfuel.
  enough (fst (writeToRemotePort fuel net host port data (Some t) w) <> Running)
    as Hs by (destruct (fst _); [exact I | exact I | congruence]).
  unfold writeToRemotePort.
  destruct (Z.eq_dec t 0) as [->|Hpos].
  - destruct fuel as [|[|fuel]]; [simpl in Hfuel; lia..|]. clear Hfuel.
    cbn [writeToRemotePort_loop]. simpl negb. cbv iota.
    destruct (attempt_calls net host port data w) as [_ Hnow].
    destruct (attempt net host port data w) as [[e|] w1]; simpl in Hnow;
      [|discriminate].
    destruct e; try discriminate.
    destruct (errno =? ECONNREFUSED); [|discriminate].
    destruct (now w1 - now w >? 0); [discriminate|].
    destruct (attempt_calls net host port data (sleep 100 w1)) as [_ Hnow2].
    destruct (attempt net host port data (sleep 100 w1)) as [[e|] w2];
      simpl in Hnow2; [|discriminate].
    destruct e; try discriminate.
    destruct (errno0 =? ECONNREFUSED); [|discriminate].
    pose proof (Hd (calls w)). pose proof (Hd (calls w1)).
    destruct (Z.gtb_spec (now w2 - now w) 0); [discriminate|lia].
  - apply writeToRemotePort_loop_bounded; [lia|assumption|].
    unfold passes_left. replace (t - (now w - now w)) with t by lia.
    destruct (Z.leb_spec t 0); lia.
Qed.

Lemma writeToRemotePort_cannot_hang_witness :
  settled (fst (writeToRemotePort 5 net_refusing "h1" 8000 None (Some 300) worker0)).
Proof.
  apply (writeToRemotePort_cannot_hang net_refusing "h1" 8000 None 300 worker0 5).
  - lia.
  - intros n. simpl. lia.
  - vm_compute. lia.
Defined.

(** X2: with a negative timeout [writeToRemotePort] answers [False] at
    once, without a single connection attempt. *)
Theorem writeToRemotePort_negative_timeout net host port data t w fuel :
  t < 0 -> (1 <= fuel)%nat ->
  writeToRemotePort fuel net host port data (Some t) w = (Ok false, w).
Proof.
  intros Ht Hfuel. destruct fuel as [|fuel]; [lia|].
  unfold writeToRemotePort. simpl.
  destruct (Z.eqb_spec t 0); [lia|].
  destruct (Z.leb_spec (t - (now w - now w)) 0); [reflexivity|lia].
Qed.

Lemma writeToRemotePort_negative_timeout_witness :
  writeToRemotePort 1 net_all_up "h1" 8000 None (Some (-1)) worker0
  = (Ok false, worker0).
Proof.
  apply (writeToRemotePort_negative_timeout net_all_up "h1" 8000 None (-1) worker0 1);
    lia.
Defined.

Lemma portIsOpen_loop_faithful net host port timeout start :
  forall fuel w b w',
    writeToRemotePort_loop fuel net host port None timeout start w = (Ok b, w') ->
    (forall k, (calls w <= k)%nat -> (S k < calls w')%nat ->
       fst (connect net host port k) = Some (SocketError ECONNREFUSED))
    /\ (if b then (calls w < calls w')%nat
                  /\ fst (connect net host port (Nat.pred (calls w'))) = None
        else forall k, (calls w <= k)%nat -> (k < calls w')%nat ->
               fst (connect net host port k) <> None).
Proof.
  induction fuel as [|fuel IH]; simpl; intros w b w' H; [discriminate|].
  destruct (match timeout with
            | Some t => negb (t =? 0) && (t - (now w - start) <=? 0)
            | None => false
            end).
  { injection H as <- <-. split; [lia|]. intros; lia. }
  unfold attempt in H.
  destruct (connect net host port (calls w)) as [r d] eqn:Hc.
  assert (Hfst : fst (connect net host port (calls w)) = r) by now rewrite Hc.
  destruct r as [e|].
  - destruct e; try discriminate.
    + injection H as <- <-. simpl. split; [intros; lia|].
      intros k Hk1 Hk2. assert (k = calls w) as -> by lia. rewrite Hfst. discriminate.
    + destruct (Z.eqb_spec errno ECONNREFUSED) as [->|]; [|discriminate].
      destruct (match timeout with
                | Some t => now _ - start >? t
                | None => false
                end).
      * injection H as <- <-. simpl. split; [intros; lia|].
        intros k Hk1 Hk2. assert (k = calls w) as -> by lia. rewrite Hfst. discriminate.
      * apply IH in H as [Hbefore Hlast]. simpl in Hbefore, Hlast.
        assert (Hstep : forall k, (calls w <= k)%nat ->
                  k = calls w \/ (S (calls w) <= k)%nat) by (intros; lia).
        split.
        -- intros k Hk1 Hk2. destruct (Hstep k Hk1) as [->|Hk]; auto.
        -- destruct b.
           ++ destruct Hlast as [Hlt Hconn]. split; [lia|assumption].
           ++ intros k Hk1 Hk2. destruct (Hstep k Hk1) as [->|Hk]; auto.
              rewrite Hfst. discriminate.
  - injection H as <- <-. simpl. split; [intros; lia|]. split; [lia|assumption].
Qed.

(** X3: the answer of [portIsOpen] is faithful to the network.  When it
    answers [True], its last attempt established a connection and every
    attempt before it was refused; when it answers [False], none of its
    attempts established a connection. *)
Theorem portIsOpen_faithful fuel net host port timeout w b w' :
  portIsOpen fuel net host port timeout w = (Ok b, w') ->
  (forall k, (calls w <= k)%nat -> (S k < calls w')%nat ->
     fst (connect net host port k) = Some (SocketError ECONNREFUSED))
  /\ (if b then (calls w < calls w')%nat
                /\ fst (connect net host port (Nat.pred (calls w'))) = None
      else forall k, (calls w <= k)%nat -> (k < calls w')%nat ->
             fst (connect net host port k) <> None).
Proof. apply portIsOpen_loop_faithful. Qed.

Lemma portIsOpen_faithful_witness :
  (0 < 1)%nat /\ fst (connect net_all_up "h1" 8000 0) = None.
Proof.
  exact (proj2 (portIsOpen_faithful 1 net_all_up "h1" 8000 (Some 5000) worker0
                  true {| now := 1; calls := 1 |} eq_refl)).
Defined.

(** X4: without a timeout (the default of [check_hosts]) a host that
    refuses every connection keeps [check_host] busy for ever: it is
    neither reported down nor is an error raised. *)
Theorem check_host_refused_without_timeout net host port :
  (forall n, fst (connect net host port n) = Some (SocketError ECONNREFUSED)) ->
  forall fuel w, fst (check_host fuel net host port None false w) = Running.
Proof.
  intros Href fuel w. unfold check_host, portIsOpen, writeToRemotePort. simpl.
  generalize (now w) at 1. intros start. revert w.
  induction fuel as [|fuel IH]; intros w; [reflexivity|].
  simpl. unfold attempt. specialize (Href (calls w)).
  destruct (connect net host port (calls w)) as [r d]. simpl in Href. subst r.
  simpl. apply IH.
Qed.

Lemma check_host_refused_without_timeout_witness :
  fst (check_host 7 net_refusing "h1" 8000 None false worker0) = Running.
Proof.
  apply (check_host_refused_without_timeout net_refusing "h1" 8000).
  intros n. reflexivity.
Defined.

(** ** [check_hosts] *)

Lemma pool_map_In {A B : Type} (f : A -> result B) (xs : list A) (ys : list B) x :
  pool_map f xs = Ok ys -> In x xs -> exists y, f x = Ok y.
Proof.
  intros H Hin. apply pool_map_Ok in H.
  induction H as [|a b xs ys Hab _ IH]; [contradiction|].
  destruct Hin as [->|Hin]; eauto.
Qed.

(** X5: for every [retry] other than zero, negative ones included, and
    every list that holds a host all of whose checks fail, [check_hosts]
    never returns a list, however long one waits. *)
Theorem check_hosts_waits_for_ever net ips port timeout cws retry ip :
  retry <> 0 ->
  In ip ips ->
  (forall fuel w, fst (check_host fuel net ip port timeout cws w) = Ok false \/
                  fst (check_host fuel net ip port timeout cws w) = Running) ->
  forall fuel, no_value (check_hosts fuel net ips port timeout cws retry).
Proof.
  intros Hretry Hin Hdown fuel.
  destruct (check_hosts fuel net ips port timeout cws retry) as [up| |] eqn:E;
    try exact I.
  unfold check_hosts in E.
  apply bind_Ok in E as (_ & _ & E). apply bind_Ok in E as (rs & Hrs & _).
  destruct (pool_map_In _ _ _ ip Hrs Hin) as [y Hy].
  unfold check_and_add in Hy.
  rewrite (check_and_add_loop_spins _ _ _ _ _ Hdown) in Hy by assumption.
  discriminate.
Qed.

Lemma check_hosts_waits_for_ever_witness :
  no_value (check_hosts 9 net_refusing ["h1"; "h2"] 8000 (Some 300) false (-1)).
Proof.
  apply (check_hosts_waits_for_ever net_refusing ["h1"; "h2"] 8000 (Some 300) false
           (-1) "h2").
  - lia.
  - simpl. auto.
  - intros fuel w.
    assert (H : forall e, fst (check_host fuel net_refusing "h2" 8000 (Some 300) false w)
                          <> Raise e).
    { intros e He.
      destruct (check_host fuel net_refusing "h2" 8000 (Some 300) false w)
        as [r w'] eqn:E.
      simpl in He. subst r. unfold check_host, portIsOpen, writeToRemotePort in E.
      simpl in E. apply writeToRemotePort_loop_Raise in E as (_ & Hne & n & Hn).
      simpl in Hn. injection Hn as <-. now apply Hne. }
    assert (H' : forall w', portIsOpen fuel net_refusing "h2" 8000 (Some 300) w
                            <> (Ok true, w')).
    { intros w' E. apply portIsOpen_loop_faithful in E as [_ [_ E]]. discriminate. }
    unfold check_host in *. simpl in *.
    destruct (portIsOpen fuel net_refusing "h2" 8000 (Some 300) w) as [[[]|e|] w'];
      simpl; auto.
    + exfalso. now apply (H' w').
    + exfalso. now apply (H e).
Defined.

(** X6: with [retry = 0] no host is probed at all, and [check_hosts]
    returns the empty list for every non-empty list of hosts, whatever
    the state of the network. *)
Theorem check_hosts_retry_zero fuel net ips port timeout cws :
  ips <> [] -> (1 <= fuel)%nat ->
  check_hosts fuel net ips port timeout cws 0 = Ok [].
Proof.
  intros Hne Hfuel. destruct fuel as [|fuel]; [lia|]. unfold check_hosts.
  assert (Hpool : ThreadPool (Z.min 50 (Z.of_nat (List.length ips))) = Ok tt).
  { unfold ThreadPool. destruct ips; [congruence|]. simpl List.length.
    destruct (Z.ltb_spec (Z.min 50 (Z.of_nat (S (List.length ips)))) 1);
      [lia|reflexivity]. }
  rewrite Hpool. simpl. clear.
  assert (H : pool_map (check_and_add (S fuel) net port timeout cws 0) ips
              = Ok (map (fun _ => None) ips)).
  { induction ips as [|ip ips IH]; simpl; [reflexivity|]. now rewrite IH. }
  rewrite H. simpl. f_equal. clear H.
  induction ips as [|ip ips IH]; simpl; [reflexivity | exact IH].
Qed.

Lemma check_hosts_retry_zero_witness :
  check_hosts 1 net_all_up ["h1"; "h2"] 8000 (Some 5000) false 0 = Ok [].
Proof.
  apply (check_hosts_retry_zero 1 net_all_up ["h1"; "h2"] 8000 (Some 5000) false).
  - discriminate.
  - lia.
Defined.

Lemma pool_map_all_included net port timeout cws retry (ips : list string) :
  retry <> 0 ->
  (forall ip, In ip ips -> exists k, succeeds_at net port timeout cws ip k worker0) ->
  exists fuel, forall fuel', (fuel <= fuel')%nat ->
    pool_map (check_and_add fuel' net port timeout cws retry) ips
    = Ok (map Some ips).
Proof.
  intros Hretry. induction ips as [|ip ips IH]; intros H.
  - exists O. reflexivity.
  - destruct (H ip (or_introl eq_refl)) as [k Hk].
    destruct (check_and_add_includes _ _ _ _ _ _ _ Hk retry Hretry) as [f Hf].
    destruct IH as [F HF]; [intros; apply H; now right|].
    exists (Nat.max f F). intros fuel' Hle. simpl.
    unfold check_and_add at 1. rewrite Hf by lia. simpl.
    rewrite HF by lia. reflexivity.
Qed.

(** X7: a failed attempt costs no try, so a host is included as soon as
    one of its checks succeeds, however many failed before.  When every
    host of a non-empty list of non-empty names ends up answering,
    [check_hosts] returns the whole list, for every [retry] other than
    zero. *)
Theorem check_hosts_all_included net ips port timeout cws retry :
  ips <> [] ->
  retry <> 0 ->
  (forall ip, In ip ips ->
     ip <> "" /\ exists k, succeeds_at net port timeout cws ip k worker0) ->
  exists fuel, check_hosts fuel net ips port timeout cws retry = Ok ips.
Proof.
  intros Hne Hretry H.
  destruct (pool_map_all_included net port timeout cws retry ips Hretry) as [F HF].
  { intros ip Hin. now apply H. }
  exists F. unfold check_hosts.
  assert (Hpool : ThreadPool (Z.min 50 (Z.of_nat (List.length ips))) = Ok tt).
  { unfold ThreadPool. destruct ips; [congruence|]. simpl List.length.
    destruct (Z.ltb_spec (Z.min 50 (Z.of_nat (S (List.length ips)))) 1);
      [lia|reflexivity]. }
  rewrite Hpool. simpl. rewrite HF by lia. simpl. f_equal.
  clear - H. induction ips as [|ip ips IH]; simpl; [reflexivity|].
  destruct (H ip (or_introl eq_refl)) as [Hip _].
  destruct (String.eqb_spec ip ""); [contradiction|]. simpl.
  f_equal. apply IH. intros; apply H; now right.
Qed.

Lemma check_hosts_all_included_witness :
  exists fuel, check_hosts fuel net_all_up ["h1"; "h2"] 8000 (Some 5000) false 1
               = Ok ["h1"; "h2"].
Proof.
  apply (check_hosts_all_included net_all_up ["h1"; "h2"] 8000 (Some 5000) false 1).
  - discriminate.
  - lia.
  - intros ip Hin. split.
    + simpl in Hin. destruct Hin as [<-|[<-|[]]]; discriminate.
    + exists 1%nat. apply (succeeds_now _ _ _ _ _ 1 worker0 {| now := 1; calls := 1 |}).
      reflexivity.
Defined.

(** ** [escapeQuotes] and the run-time directories *)

Lemma replace_dquote_escaped s : forall after,
  dquotes_escaped after
    (replace_char dquote (String backslash (String dquote EmptyString)) s) = true.
Proof.
  induction s as [|c s IH]; intros after; simpl; [reflexivity|].
  destruct (Ascii.eqb_spec c dquote) as [->|Hc]; simpl.
  - apply IH.
  - destruct (Ascii.eqb_spec c dquote); [contradiction|]. simpl. apply IH.
Qed.

(** X8: in the string [escapeQuotes] returns when asked to escape double
    quotes, every double quote comes right after a backslash, whatever
    the input and whether or not single quotes are escaped as well. *)
Theorem escapeQuotes_double_quotes_escaped s singleQuotes :
  dquotes_escaped false (escapeQuotes s singleQuotes true) = true.
Proof. unfold escapeQuotes. apply replace_dquote_escaped. Qed.

Lemma length_append (a b : string) :
  String.length (a ++ b) = (String.length a + String.length b)%nat.
Proof. induction a as [|c a IH]; simpl; [reflexivity | now rewrite IH]. Qed.

Lemma length_replace_char old new s :
  String.length (replace_char old new s)
  = (String.length s - count_char old s + count_char old s * String.length new)%nat.
Proof.
  induction s as [|c s IH]; simpl; [reflexivity|].
  assert (count_char old s <= String.length s)%nat.
  { clear. induction s as [|c s IH]; simpl; [lia|]. destruct (Ascii.eqb c old); lia. }
  destruct (Ascii.eqb c old); simpl.
  - rewrite length_append, IH. lia.
  - rewrite IH. lia.
Qed.

Lemma count_dquote_after_squotes s :
  count_char dquote
    (replace_char squote
       (String squote (String backslash (String squote (String squote EmptyString)))) s)
  = count_char dquote s.
Proof.
  induction s as [|c s IH]; simpl; [reflexivity|].
  destruct (Ascii.eqb_spec c squote) as [->|Hc].
  - cbn [append count_char].
    change (Ascii.eqb squote dquote) with false.
    change (Ascii.eqb backslash dquote) with false.
    cbv iota. simpl Nat.add. exact IH.
  - cbn [count_char]. now rewrite IH.
Qed.

(** X9: escaping both kinds of quotes lengthens a string by three
    characters for each single quote and by one for each double quote; a
    string without quotes keeps its length. *)
Theorem escapeQuotes_length s :
  String.length (escapeQuotes s true true)
  = (String.length s + 3 * count_char squote s + count_char dquote s)%nat.
Proof.
  cbv beta zeta iota delta [escapeQuotes].
  rewrite length_replace_char, count_dquote_after_squotes, length_replace_char.
  simpl String.length.
  assert (count_char squote s + count_char dquote s <= String.length s)%nat.
  { clear. induction s as [|c s IH]; simpl; [lia|].
    destruct (Ascii.eqb_spec c squote) as [->|].
    - change (Ascii.eqb squote dquote) with false. cbv iota. lia.
    - destruct (Ascii.eqb c dquote); cbv iota; lia. }
  lia.
Qed.

Lemma os_makedirs_keeps path d d' :
  os_makedirs path d = (Ok tt, d') ->
  path ∈ present d' /\ present d ⊆ present d'
  /\ environ d' = environ d /\ home d' = home d /\ made d' = made d ++ [path].
Proof.
  unfold os_makedirs. destruct (makedirs_fails d path); [discriminate|].
  intros H. injection H as <-. simpl. repeat split; set_solver.
Qed.

(** X10: [getDfmsPidDir(createIfMissing=True)] makes the directory when
    it is missing and only then: after a call that returned, the
    directory exists, nothing that existed is gone, at most one call to
    [os.makedirs] was made, and a second call returns the same path
    without touching the disk. *)
Theorem getDfmsPidDir_creates_once d p d' :
  getDfmsPidDir true d = (Ok p, d') ->
  p ∈ present d' /\ present d ⊆ present d'
  /\ (made d' = made d \/ made d' = made d ++ [p])
  /\ getDfmsPidDir true d' = (Ok p, d').
Proof.
  unfold getDfmsPidDir, createDirIfMissing.
  set (path := path_join (getDfmsDir d) "pid").
  destruct (decide (path ∈ present d)) as [Hin|Hout].
  - intros H. injection H as <- <-. repeat split; auto.
    fold path. destruct (decide (path ∈ present d)); [reflexivity|contradiction].
  - destruct (os_makedirs path d) as [[[]| |] d1] eqn:E; try discriminate.
    intros H. injection H as <- <-.
    apply os_makedirs_keeps in E as (Hin & Hsub & Henv & Hhome & Hmade).
    repeat split; auto.
    assert (Hdir : getDfmsDir d1 = getDfmsDir d).
    { unfold getDfmsDir. now rewrite Henv, Hhome. }
    rewrite Hdir. fold path.
    destruct (decide (path ∈ present d1)); [reflexivity|contradiction].
Qed.

Lemma getDfmsPidDir_creates_once_witness :
  "/run/user/1000/dfms/pid" ∈ present (snd (getDfmsPidDir true fresh_disk))
  /\ getDfmsPidDir true (snd (getDfmsPidDir true fresh_disk))
     = (Ok "/run/user/1000/dfms/pid", snd (getDfmsPidDir true fresh_disk)).
Proof.
  assert (E : getDfmsPidDir true fresh_disk
              = (Ok "/run/user/1000/dfms/pid", snd (getDfmsPidDir true fresh_disk))).
  { unfold getDfmsPidDir, createDirIfMissing.
    destruct (decide (_ ∈ present fresh_disk)) as [Hin|Hout]; reflexivity. }
  destruct (getDfmsPidDir_creates_once _ _ _ E) as (Hin & _ & _ & Hagain).
  split; assumption.
Defined.

(** ** The monitors *)

Lemma graph_dict_pace stt st : graph_dict (pace stt st) = graph_dict st.
Proof. unfold pace. destruct (_ <? _); reflexivity. Qed.

(** One pass over a session either leaves the graph log alone and forgets
    no session, or appends the record of a session that was not in
    [graph_dict] and enters it there. *)
Lemma monitor_session_graph m gname sname s st :
  let st' := snd (monitor_session m gname sname s st) in
  (gfile st' = gfile st
   /\ forall x, is_Some (graph_dict st !! x) -> is_Some (graph_dict st' !! x))
  \/ (exists g,
        gfile st' = gfile st ++ lines [PyDict [("ssid", PyStr (sessionId s)); ("g", g)]]
        /\ graph_dict st !! sessionId s = None
        /\ graph_dict st' = <[sessionId s := g]> (graph_dict st)).
Proof.
  unfold monitor_session.
  destruct (graph_status m (requests st) (sessionId s)) as [gs|e|]; simpl;
    try solve [left; split; auto].
  destruct (graph_dict st !! sessionId s) as [g0|] eqn:Hseen; simpl.
  - destruct (open_append m (S (requests st)) sname); simpl.
    + left; split; auto.
    + rewrite gfile_pace, graph_dict_pace. simpl. left; split; auto.
  - destruct (graph m (S (requests st)) (sessionId s)) as [g|e|]; simpl;
      try solve [left; split; auto].
    destruct (open_append m (S (S (requests st))) gname); simpl.
    + left. split; [reflexivity|]. intros x Hx.
      destruct (decide (sessionId s = x)) as [<-|Hne].
      * rewrite lookup_insert_eq. eauto.
      * now rewrite lookup_insert_ne.
    + destruct (open_append m (S (S (S (requests st)))) sname); simpl.
      * right. exists g. auto.
      * rewrite gfile_pace, graph_dict_pace. simpl. right. exists g. auto.
Qed.

Lemma monitor_session_graph_once m gname sname s st :
  graph_once st -> graph_once (snd (monitor_session m gname sname s st)).
Proof.
  intros (gs & Hg & Hnd & Hin).
  destruct (monitor_session_graph m gname sname s st) as [[Hsame Hkeep]|(g & Happ & Hnew & Hdict)].
  - exists gs. rewrite Hsame. auto.
  - exists (gs ++ [PyDict [("ssid", PyStr (sessionId s)); ("g", g)]]).
    rewrite Happ, Hg, lines_snoc, omap_app. simpl. split; [reflexivity|]. split.
    + apply NoDup_app. split; [assumption|]. split; [|apply NoDup_singleton].
      intros x Hx Hx'. apply list_elem_of_singleton in Hx'. subst x.
      apply Hin in Hx. rewrite Hnew in Hx. destruct Hx; discriminate.
    + intros x Hx. rewrite Hdict. apply elem_of_app in Hx as [Hx|Hx].
      * destruct (decide (sessionId s = x)) as [<-|Hne].
        -- rewrite lookup_insert_eq. eauto.
        -- rewrite lookup_insert_ne by assumption. now apply Hin.
      * apply list_elem_of_singleton in Hx. subst x. rewrite lookup_insert_eq. eauto.
Qed.

Lemma monitor_sessions_graph_once m gname sname : forall ss st,
  graph_once st -> graph_once (snd (monitor_sessions m gname sname ss st)).
Proof.
  induction ss as [|s ss IH]; simpl; intros st H; [assumption|].
  pose proof (monitor_session_graph_once m gname sname s st H) as H1.
  destruct (monitor_session m gname sname s st) as [[[]| |] st1]; simpl in *; auto.
Qed.

Lemma monitor_graph_loop_graph_once m gname sname : forall fuel st,
  graph_once st -> graph_once (snd (monitor_graph_loop fuel m gname sname st)).
Proof.
  induction fuel as [|fuel IH]; simpl; intros st H; [assumption|].
  destruct (sessions m (requests st)) as [ss| |]; simpl; try assumption.
  pose proof (monitor_sessions_graph_once m gname sname ss (request m st) H) as H1.
  destruct (monitor_sessions m gname sname ss (request m st)) as [[[]| |] st1];
    simpl in *; auto.
Qed.

(** X11: [monitor_graph] writes the graph of a session once.  Started
    with an empty [graph_dict] and an empty graph log, however long it
    runs and however it ends, the graph log is a sequence of records
    whose session ids are all different. *)
Theorem monitor_graph_writes_graph_once fuel m dump_path st :
  graph_dict st = ∅ -> gfile st = [] ->
  exists gs, gfile (snd (monitor_graph fuel m dump_path st)) = lines gs
             /\ NoDup (omap record_ssid gs).
Proof.
  intros Hdict Hfile.
  assert (H0 : graph_once st).
  { exists []. rewrite Hfile. split; [reflexivity|]. split; [constructor|].
    intros s Hs. inversion Hs. }
  assert (H : graph_once (snd (monitor_graph fuel m dump_path st))).
  { unfold monitor_graph. destruct (negb (path_exists m (dirname dump_path)));
      [exact H0|]. now apply monitor_graph_loop_graph_once. }
  destruct H as (gs & Hg & Hnd & _). eauto.
Qed.

Lemma monitor_graph_writes_graph_once_witness :
  exists gs,
    gfile (snd (monitor_graph 4 (manager_of [session_busy; session_done])
                  "/logs/0/monitor" monitor0)) = lines gs
    /\ NoDup (omap record_ssid gs).
Proof.
  apply (monitor_graph_writes_graph_once 4 (manager_of [session_busy; session_done])
           "/logs/0/monitor" monitor0); reflexivity.
Defined.




(** X13: in [monitor_execution_finished] a poll that lists [n] sessions,
    none of them finished, sleeps [n] times the monitoring interval
    before the next poll; a poll that lists no session does not sleep at
    all. *)
Theorem finished_scan_delay : forall ss st st',
  finished_scan ss st = (false, st') ->
  clock st' = clock st + GRAPH_MONITOR_INTERVAL * Z.of_nat (List.length ss).
Proof.
  induction ss as [|s ss IH]; simpl; intros st st' H.
  - injection H as <-. lia.
  - destruct (all_finished s); [discriminate|].
    apply IH in H. rewrite H. unfold pace, monitor_sleep.
    replace (clock st - clock st) with 0 by lia.
    change (0 <? GRAPH_MONITOR_INTERVAL) with true. simpl clock. lia.
Qed.

Lemma finished_scan_delay_witness :
  clock (snd (finished_scan [session_busy; session_busy] monitor0)) = 10000.
Proof.
  apply (finished_scan_delay [session_busy; session_busy] monitor0 _ eq_refl).
Defined.

(** X14: as long as its polls do not raise,
    [monitor_execution_finished] returns exactly when some poll lists at
    least one session whose statuses are all [FINISHED] (a session with
    no status at all counts), whatever the other sessions of that
    listing. *)
Theorem monitor_execution_finished_exit_condition m st :
  (forall n, exists ss, sessions m n = Ok ss) ->
  (exists fuel, fst (monitor_execution_finished fuel m st) = Ok tt)
  <-> (exists k ss, sessions m (requests st + k) = Ok ss
                    /\ existsb all_finished ss = true).
Proof.
  intros Hall. split.
  - intros [fuel H]. eapply monitor_execution_finished_exits, H.
  - intros (k & ss & Hk & Hf). eapply monitor_execution_finished_reaches; eauto.
Qed.

Lemma monitor_execution_finished_exit_condition_witness :
  exists fuel,
    fst (monitor_execution_finished fuel
           (manager_of [session_busy; {| sessionId := "s3"; status := [] |}])
           monitor0) = Ok tt.
Proof.
  apply (monitor_execution_finished_exit_condition
           (manager_of [session_busy; {| sessionId := "s3"; status := [] |}]) monitor0).
  - intros n. eexists. reflexivity.
  - exists O. eexists. split; reflexivity.
Defined.

(** ** [modify_pg] and [get_pg] *)

Lemma contains_append c (a b : string) :
  contains c (a ++ b) = contains c a || contains c b.
Proof.
  induction a as [|x a IH]; simpl; [reflexivity|].
  rewrite IH. now rewrite orb_assoc.
Qed.

Lemma split_without sep s : contains sep s = false -> split sep s = [s].
Proof.
  induction s as [|c s IH]; simpl; intros H; [reflexivity|].
  apply orb_false_iff in H as [Hc Hs]. rewrite Hc, (IH Hs). reflexivity.
Qed.

Lemma split_at sep (a b : string) :
  contains sep a = false ->
  split sep (a ++ String sep b) = a :: split sep b.
Proof.
  induction a as [|c a IH]; simpl; intros H.
  - now rewrite Ascii.eqb_refl.
  - apply orb_false_iff in H as [Hc Ha]. rewrite Hc, (IH Ha). reflexivity.
Qed.

(** Splitting undoes joining, when no part holds the separator. *)
Lemma split_concat sep : forall parts part,
  Forall (fun s => contains sep s = false) (part :: parts) ->
  split sep (String.concat (String sep EmptyString) (part :: parts)) = part :: parts.
Proof.
  induction parts as [|y parts IH]; intros part H.
  - simpl. apply split_without. now inversion H.
  - inversion H as [|? ? Hp Hrest]; subst.
    change (String.concat (String sep EmptyString) (part :: y :: parts))
      with (part ++ String sep (String.concat (String sep EmptyString) (y :: parts)))%string.
    rewrite split_at by assumption. now rewrite IH.
Qed.

Lemma length_split sep s : List.length (split sep s) = S (count_char sep s).
Proof.
  induction s as [|c s IH]; simpl; [reflexivity|].
  destruct (Ascii.eqb c sep); simpl; [now rewrite IH|].
  destruct (split sep s) as [|p ps]; simpl in *; [discriminate | exact IH].
Qed.

Lemma contains_count c s : contains c s = negb (Nat.eqb (count_char c s) 0).
Proof.
  induction s as [|x s IH]; simpl; [reflexivity|].
  destruct (Ascii.eqb x c); simpl; [reflexivity | exact IH].
Qed.

Lemma plain_parts s :
  plain s = true -> contains ","%char s = false /\ contains "="%char s = false.
Proof.
  unfold plain. intros H. apply andb_true_iff in H as [H1 H2].
  split; now apply negb_true_iff.
Qed.

Lemma named_argument_comma kv :
  plain (fst kv) = true -> plain (snd kv) = true ->
  contains ","%char (named_argument kv) = false
  /\ contains "="%char (named_argument kv) = true
  /\ split "="%char (named_argument kv) = [fst kv; snd kv].
Proof.
  intros Hk Hv. apply plain_parts in Hk as [Hk1 Hk2]. apply plain_parts in Hv as [Hv1 Hv2].
  unfold named_argument. repeat split.
  - rewrite !contains_append, Hk1, Hv1. reflexivity.
  - rewrite !contains_append. simpl. now rewrite orb_true_r.
  - change (fst kv ++ "=" ++ snd kv)%string with (fst kv ++ String "="%char (snd kv))%string.
    rewrite split_at by assumption. now rewrite split_without.
Qed.

Lemma make_kwargs_named named : forall d,
  Forall (fun kv => plain (fst kv) = true /\ plain (snd kv) = true) named ->
  make_kwargs (map named_argument named) d
  = Ok (fold_left (fun d kv => <[fst kv := snd kv]> d) named d).
Proof.
  induction named as [|kv named IH]; intros d H; [reflexivity|].
  inversion H as [|? ? [Hk Hv] Hrest]; subst. simpl.
  destruct (named_argument_comma kv Hk Hv) as (_ & _ & ->). now apply IH.
Qed.

Lemma filter_arguments args named :
  Forall (fun a => plain a = true) args ->
  Forall (fun kv => plain (fst kv) = true /\ plain (snd kv) = true) named ->
  List.filter (fun x => negb (contains "="%char x)) (args ++ map named_argument named)
  = args
  /\ List.filter (contains "="%char) (args ++ map named_argument named)
     = map named_argument named.
Proof.
  intros Ha Hn. rewrite !List.filter_app.
  assert (H1 : List.filter (fun x => negb (contains "="%char x)) args = args
               /\ List.filter (contains "="%char) args = []).
  { induction Ha as [|a args Hp _ [IH1 IH2]]; simpl; [auto|].
    apply plain_parts in Hp as [_ ->]. simpl. now rewrite IH1, IH2. }
  assert (H2 : List.filter (fun x => negb (contains "="%char x)) (map named_argument named)
               = []
               /\ List.filter (contains "="%char) (map named_argument named)
                  = map named_argument named).
  { induction Hn as [|kv named [Hk Hv] _ [IH1 IH2]]; simpl; [auto|].
    destruct (named_argument_comma kv Hk Hv) as (_ & -> & _). simpl.
    now rewrite IH1, IH2. }
  destruct H1 as [-> ->], H2 as [-> ->]. now rewrite app_nil_r.
Qed.

(** X15: how [modify_pg] reads a specification.  For a name without
    comma that resolves to [func], positional arguments free of commas
    and equal signs, and named arguments whose keys and values are so
    too, the specification [name,arg1,...,key1=value1,...] makes exactly
    one call, [func(pgt, *args, **kwargs)], with these positional
    arguments in order and the dictionary of the named ones, in which a
    later key replaces an earlier one. *)
Theorem modify_pg_arguments t st name args named func :
  get_symbol t name = Ok func ->
  contains ","%char name = false ->
  Forall (fun a => plain a = true) args ->
  Forall (fun kv => plain (fst kv) = true /\ plain (snd kv) = true) named ->
  modify_pg t st (join_modifier name args named)
  = let st' := {| pgt := pgt st;
                  called := called st ++ [(name, args, kwargs_of named)];
                  written := written st |} in
    match func (pgt st) args (kwargs_of named) with
    | Ok (mutated, value) =>
        (Ok value, {| pgt := mutated; called := called st'; written := written st' |})
    | Raise e => (Raise e, st')
    | Running => (Running, st')
    end.
Proof.
  intros Hsym Hname Hargs Hnamed.
  assert (Hsplit : split ","%char (join_modifier name args named)
                   = name :: args ++ map named_argument named).
  { unfold join_modifier. apply (split_concat ","%char). constructor; [assumption|].
    apply Forall_app. split.
    - clear - Hargs. induction Hargs as [|a args Ha _ IH]; constructor; [|exact IH].
      now apply plain_parts in Ha.
    - clear - Hnamed. induction Hnamed as [|kv named [Hk Hv] _ IH]; simpl;
        constructor; [|exact IH].
      now destruct (named_argument_comma kv Hk Hv). }
  unfold modify_pg. rewrite Hsplit. cbn [hd tl]. rewrite Hsym.
  destruct (filter_arguments args named Hargs Hnamed) as [-> ->].
  rewrite (make_kwargs_named named ∅ Hnamed). fold (kwargs_of named).
  destruct (func (pgt st) args (kwargs_of named)) as [[mutated value]| |]; reflexivity.
Qed.

Lemma modify_pg_arguments_witness :
  join_modifier "mods.tag" ["x"; "y"] [("k", "v"); ("k", "w")] = "mods.tag,x,y,k=v,k=w"
  /\ modify_pg example_tools {| pgt := PyList []; called := []; written := [] |}
       "mods.tag,x,y,k=v,k=w"
     = (Ok PyNone,
        {| pgt := PyList [PyStr "x"; PyStr "y"];
           called := [("mods.tag", ["x"; "y"], kwargs_of [("k", "v"); ("k", "w")])];
           written := [] |})
  /\ kwargs_of [("k", "v"); ("k", "w")] !! "k" = Some "w".
Proof.
  split; [reflexivity|]. split.
  - apply (modify_pg_arguments example_tools
             {| pgt := PyList []; called := []; written := [] |}
             "mods.tag" ["x"; "y"] [("k", "v"); ("k", "w")] tag eq_refl eq_refl).
    + repeat constructor.
    + repeat constructor.
  - unfold kwargs_of. simpl. apply lookup_insert_eq.
Defined.

Lemma make_kwargs_ValueError : forall items d x,
  In x items -> List.length (split "="%char x) <> 2%nat ->
  make_kwargs items d = Raise ValueError.
Proof.
  induction items as [|y items IH]; intros d x Hin Hlen; [contradiction|].
  simpl. destruct (split "="%char y) as [|k [|v [|z rest]]] eqn:E; try reflexivity.
  destruct Hin as [->|Hin].
  - rewrite E in Hlen. simpl in Hlen. congruence.
  - eapply IH; eauto.
Qed.

(** X16: a named argument with more than one equal sign makes
    [modify_pg] raise [ValueError] after the name has been resolved and
    before the modifier is called: the graph is untouched and no call is
    recorded. *)
Theorem modify_pg_two_equal_signs t st m func x :
  get_symbol t (modifier_name m) = Ok func ->
  In x (tl (split ","%char m)) ->
  (2 <= count_char "="%char x)%nat ->
  modify_pg t st m = (Raise ValueError, st).
Proof.
  intros Hsym Hin Hcount. unfold modify_pg. fold (modifier_name m). rewrite Hsym.
  rewrite (make_kwargs_ValueError _ ∅ x); [reflexivity| |].
  - apply List.filter_In. split; [assumption|].
    rewrite contains_count. destruct (count_char "="%char x); [lia|reflexivity].
  - rewrite length_split. lia.
Qed.

Lemma modify_pg_two_equal_signs_witness :
  modify_pg example_tools {| pgt := PyList []; called := []; written := [] |}
    "mods.tag,x,k=v=w"
  = (Raise ValueError, {| pgt := PyList []; called := []; written := [] |}).
Proof.
  apply (modify_pg_two_equal_signs example_tools _ "mods.tag,x,k=v=w" tag "k=v=w").
  - reflexivity.
  - simpl. auto.
  - simpl. lia.
Defined.

(** X17: an empty [--pg-modifiers] string is not an empty list of
    modifiers.  [get_pg] still asks [get_symbol] for one modifier, whose
    name is the empty string, and fails as that lookup fails, before any
    host is probed and before anything is written. *)
Theorem get_pg_empty_modifiers fuel net t o nms dims st g e :
  truthy (opts.logical_graph o) || truthy (opts.physical_graph o) = true ->
  load_pgt t o nms dims = Ok g ->
  opts.pg_modifiers o = Some "" ->
  get_symbol t "" = Raise e ->
  get_pg fuel net t o nms dims st
  = (Raise e, {| pgt := g; called := called st; written := written st |}).
Proof.
  intros Hgiven Hload Hspec Hsym. unfold get_pg. rewrite Hload, Hspec.
  simpl. unfold modify_pg. simpl. rewrite Hsym.
  destruct (truthy (opts.logical_graph o)), (truthy (opts.physical_graph o));
    simpl in *; congruence.
Qed.

Lemma get_pg_empty_modifiers_witness :
  get_pg 2 net_all_up example_tools (example_options (Some "")) ["n1"] ["d1"] assembly0
  = (Raise (UnknownSymbol ""),
     {| pgt := PyList [drop_a; drop_b]; called := []; written := [] |}).
Proof.
  apply (get_pg_empty_modifiers 2 net_all_up example_tools (example_options (Some ""))
           ["n1"] ["d1"] assembly0 (PyList [drop_a; drop_b]) (UnknownSymbol "")
           eq_refl eq_refl eq_refl eq_refl).
Defined.





(** X19: with a logical graph, an [--app] outside the three entries of
    [apps] (below -3 or above 2) makes [get_pg] raise [IndexError] before
    the graph is unrolled; nothing is changed. *)
Theorem get_pg_app_out_of_range fuel net t o nms dims st :
  truthy (opts.logical_graph o) = true ->
  opts.app o < -3 \/ 3 <= opts.app o ->
  get_pg fuel net t o nms dims st = (Raise IndexError, st).
Proof.
  intros Hlg Happ. unfold get_pg, load_pgt. rewrite Hlg. simpl.
  unfold tuple_index. simpl List.length.
  destruct (Z.ltb_spec (opts.app o) 0).
  - destruct (Z.leb_spec 0 (opts.app o + Z.of_nat 3)); [lia|]. reflexivity.
  - destruct (Z.leb_spec 0 (opts.app o)); [|lia]. simpl.
    destruct (Z.ltb_spec (opts.app o) (Z.of_nat 3)); [lia|]. reflexivity.
Qed.

Lemma get_pg_app_out_of_range_witness :
  get_pg 2 net_all_up example_tools (options_logical 3) ["n1"] ["d1"] assembly0
  = (Raise IndexError, assembly0).
Proof.
  apply (get_pg_app_out_of_range 2 net_all_up example_tools (options_logical 3)
           ["n1"] ["d1"] assembly0).
  - reflexivity.
  - right. simpl. lia.
Defined.

(** ** Interface discovery *)

(** X20: at the two known locations [get_ip_via_ifconfig] never raises
    once [ifconfig] has printed something: every failure to find the
    address in the output gives the string ['None'].  This is what
    happens in particular when the output is too short to have the line
    it reads, the second at Pawsey and the nineteenth at Tianhe2. *)
Theorem get_ip_via_ifconfig_never_raises s loc out :
  ifconfig s = Ok out ->
  loc = "Pawsey" \/ loc = "Tianhe2" ->
  exists ip,
    get_ip_via_ifconfig s loc = Ok ip
    /\ ((loc = "Pawsey" /\ (count_char newline out < 1)%nat
         \/ loc = "Tianhe2" /\ (count_char newline out < 18)%nat) ->
        ip = "None").
Proof.
  intros Hout Hloc. unfold get_ip_via_ifconfig. rewrite Hout.
  assert (Hshort : forall ln, (count_char newline out < ln)%nat ->
                     nth_error (split newline out) ln = None).
  { intros ln Hlt. apply nth_error_None. rewrite length_split. lia. }
  destruct Hloc as [-> | ->]; cbn [bind String.eqb Ascii.eqb Bool.eqb].
  - destruct (nth_error (split newline out) 1) as [line|] eqn:E.
    + destruct (nth_error (split_ws line) 1) as [field|];
        [destruct (nth_error (split ":"%char field) 1)|];
        eexists; (split; [reflexivity|]);
        intros [[_ H]|[H _]]; try discriminate;
        rewrite (Hshort _ H) in E; discriminate.
    + eexists. split; [reflexivity|]. reflexivity.
  - destruct (nth_error (split newline out) 18) as [line|] eqn:E.
    + destruct (nth_error (split_ws line) 1) as [field|];
        [destruct (nth_error (split ":"%char field) 1)|];
        eexists; (split; [reflexivity|]);
        intros [[H _]|[_ H]]; try discriminate;
        rewrite (Hshort _ H) in E; discriminate.
    + eexists. split; [reflexivity|]. reflexivity.
Qed.

Lemma get_ip_via_ifconfig_never_raises_witness :
  exists ip,
    get_ip_via_ifconfig example_site "Tianhe2" = Ok ip
    /\ (("Tianhe2" = "Pawsey" /\ (count_char newline ifconfig_output < 1)%nat
         \/ "Tianhe2" = "Tianhe2" /\ (count_char newline ifconfig_output < 18)%nat) ->
        ip = "None").
Proof.
  apply (get_ip_via_ifconfig_never_raises example_site "Tianhe2" ifconfig_output).
  - reflexivity.
  - now right.
Defined.

(** ** The coordinator *)

Lemma refused_false s o :
  refused s o = false ->
  Bool.eqb (given (opts.logical_graph o)) (given (opts.physical_graph o)) = false
  /\ missing s (opts.logical_graph o) = false
  /\ missing s (opts.physical_graph o) = false
  /\ match opts.monitor_host o with
     | Some _ => opts.num_islands o >? 1
     | None => false
     end = false.
Proof.
  unfold refused. intros H.
  apply orb_false_iff in H as [H H4]. apply orb_false_iff in H as [H H3].
  apply orb_false_iff in H as [H1 H2]. auto.
Qed.

(** Options that are not refused take [main] to the topology and from
    there to [dispatch]. *)
Lemma main_dispatch fuel w o p :
  opts.check_interfaces o = false ->
  refused (the_site w) o = false ->
  main fuel w o p = and_then (lift (get_remote (the_site w) o)) (dispatch fuel w o) p.
Proof.
  intros Hci Href. apply refused_false in Href as (H1 & H2 & H3 & H4).
  unfold main, dispatch. rewrite Hci, H1.
  unfold missing in H2, H3.
  destruct (opts.logical_graph o) as [lg|];
    destruct (opts.physical_graph o) as [pg|];
    destruct (opts.monitor_host o) as [mh|];
    try rewrite H2; try rewrite H3; try rewrite H4; reflexivity.
Qed.

(** X21: options that name both graphs or none, a graph file that does
    not exist, or a monitor host together with several islands make
    [main] end with status 2 after a single error message: the topology
    is not read, no directory is made, nothing is started. *)
Theorem main_refuses fuel w o p :
  opts.check_interfaces o = false ->
  refused (the_site w) o = true ->
  exists msg,
    main fuel w o p
    = (Raise (SystemExit 2),
       {| events := events p ++ [ParserError msg]; assembled := assembled p;
          monitored := monitored p |}).
Proof.
  intros Hci. unfold main. rewrite Hci. unfold refused, missing.
  destruct (Bool.eqb (given (opts.logical_graph o)) (given (opts.physical_graph o)));
    [intros _; eexists; reflexivity|].
  destruct (opts.logical_graph o) as [lg|];
    [destruct (given (Some lg) && negb (file_exists (the_site w) lg));
       [intros _; eexists; reflexivity|]|];
    (destruct (opts.physical_graph o) as [pg|];
       [destruct (given (Some pg) && negb (file_exists (the_site w) pg));
          [intros _; eexists; reflexivity|]|]);
    (destruct (opts.monitor_host o);
       [destruct (opts.num_islands o >? 1);
          [intros _; eexists; reflexivity | discriminate]
       | discriminate]).
Qed.

Lemma main_refuses_witness :
  exists msg,
    main 5 example_world (options_with (Some "/logs") false None None) process0
    = (Raise (SystemExit 2),
       {| events := events process0 ++ [ParserError msg];
          assembled := assembled process0; monitored := monitored process0 |}).
Proof.
  apply (main_refuses 5 example_world (options_with (Some "/logs") false None None)
           process0); reflexivity.
Defined.
